(** * ptf dataplane: a shallow embedding of [src/ptf/dataplane.py]

    The development follows the Python module top to bottom:
    [match_exp_pkt], the nanomsg packet source ([DataPlanePacketSourceNN]),
    and the [DataPlane] engine (capture loop, port registry, [packets],
    [poll], [flush]).

    Conventions of the embedding.
    - A byte string ([bytes]) is a [list byte].
    - Device numbers, port numbers and [qlen] are natural numbers; the port
      field of a nanomsg message is a signed 32-bit integer and is kept in [Z].
    - A receive timestamp is a finite float of which only the order is ever
      used; it is kept in [Z].  [float("inf")] is the extra point [None] of
      [option Z].
    - A Python [dict] is an insertion-ordered association list ([dict_get],
      [dict_set], [dict_del]); a [defaultdict(int)] is a [gmap] read with
      default [0].
    - A method that mutates [self] and may raise is a function from the
      state to a result ([Val] or [Exc]) and the state at that point. *)

From Stdlib Require Import ZArith Lia String Sorted.
From Stdlib Require Import Strings.Byte.
From stdpp Require Import base decidable option list gmap.

Local Open Scope Z_scope.
Local Open Scope nat_scope.

(** ** Byte strings *)

Abbreviation bytes := (list byte).

#[global] Instance byte_eq_decision : EqDecision byte := Byte.byte_eq_dec.

(** ** Exceptions and results *)

Inductive exn : Type :=
  | KeyError
  | IndexError
  | OSError
  | AssertionError
  | StructError
  | TypeError.

Inductive res (A : Type) : Type :=
  | Val (a : A)
  | Exc (e : exn).
Arguments Val {A} a.
Arguments Exc {A} e.

(** A computation over a mutable object of type [S]. *)
Definition M (S A : Type) : Type := S -> res A * S.

Definition ret {S A} (a : A) : M S A := fun s => (Val a, s).
Definition raise {S A} (e : exn) : M S A := fun s => (Exc e, s).
Definition bind {S A B} (c : M S A) (k : A -> M S B) : M S B :=
  fun s => match c s with
           | (Val a, s') => k a s'
           | (Exc e, s') => (Exc e, s')
           end.
Definition get {S} : M S S := fun s => (Val s, s).
Definition modify {S} (f : S -> S) : M S unit := fun s => (Val tt, f s).

Declare Scope py_scope.
Delimit Scope py_scope with py.
Notation "'let!' x ':=' c 'in' k" := (bind c (fun x => k))
  (at level 10, x pattern, c at level 100, k at level 200) : py_scope.
Notation "'exec' c 'then' k" := (bind c (fun _ => k))
  (at level 10, c at level 100, k at level 200) : py_scope.

(** ** Python dictionaries, in insertion order *)

Section PyDict.
Context {K V : Type} `{EqDecision K}.

Fixpoint dict_get (k : K) (d : list (K * V)) : option V :=
  match d with
  | [] => None
  | (k', v) :: d' => if decide (k = k') then Some v else dict_get k d'
  end.

(** [d[k] = v]: an existing key keeps its place, a new key goes last. *)
Fixpoint dict_set (k : K) (v : V) (d : list (K * V)) : list (K * V) :=
  match d with
  | [] => [(k, v)]
  | (k', v') :: d' =>
      if decide (k = k') then (k, v) :: d' else (k', v') :: dict_set k v d'
  end.

(** [del d[k]] for a key that is present. *)
Fixpoint dict_del (k : K) (d : list (K * V)) : list (K * V) :=
  match d with
  | [] => []
  | (k', v') :: d' =>
      if decide (k = k') then dict_del k d' else (k', v') :: dict_del k d'
  end.

Definition dict_keys (d : list (K * V)) : list K := d.*1.

Definition dict_mem (k : K) (d : list (K * V)) : bool :=
  bool_decide (is_Some (dict_get k d)).
End PyDict.

(** ** [match_exp_pkt] *)

(** [mask.Mask] is an external collaborator: only [is_valid()] and
    [pkt_match(pkt)] are called on it. *)
Record Mask : Type := {
  is_valid : bool;
  pkt_match : bytes -> bool;
}.

(** The value passed as [exp_pkt]: a mask, or any other object, of which
    only [bytes(exp_pkt)] is used. *)
Inductive expected : Type :=
  | ExpMask (m : Mask)
  | ExpPkt (e : bytes).

Definition match_exp_pkt (exp_pkt : expected) (pkt : bytes) : bool :=
  match exp_pkt with
  | ExpMask m =>
      if negb (is_valid m) then false else pkt_match m pkt
  | ExpPkt e =>
      let p := pkt in
      let p := if length e <? 60 then take (length e) p else p in
      bool_decide (e = p)
  end.

(** ** [struct.unpack_from] for the formats the module uses *)

(** Four bytes, little-endian, as a signed 32-bit integer (format [<i]). *)
Definition le_int32 (b0 b1 b2 b3 : byte) : Z :=
  let u := (Z.of_N (Byte.to_N b0)
            + Z.shiftl (Z.of_N (Byte.to_N b1)) 8
            + Z.shiftl (Z.of_N (Byte.to_N b2)) 16
            + Z.shiftl (Z.of_N (Byte.to_N b3)) 24)%Z in
  if (u <? 2 ^ 31)%Z then u else (u - 2 ^ 32)%Z.

(** [struct.unpack_from("<i", msg)]; a buffer that is too short is a
    [struct.error]. *)
Definition unpack_i (msg : bytes) : res Z :=
  match msg with
  | b0 :: b1 :: b2 :: b3 :: _ => Val (le_int32 b0 b1 b2 b3)
  | _ => Exc StructError
  end.

Definition unpack_ii (msg : bytes) : res (Z * Z) :=
  match unpack_i msg, unpack_i (drop 4 msg) with
  | Val a, Val b => Val (a, b)
  | _, _ => Exc StructError
  end.

Definition unpack_iii (msg : bytes) : res (Z * Z * Z) :=
  match unpack_i msg, unpack_ii (drop 4 msg) with
  | Val a, Val (b, c) => Val (a, b, c)
  | _, _ => Exc StructError
  end.

(** [struct.calcsize] of the two formats that are sliced off. *)
Definition calcsize_i : nat := 4.
Definition calcsize_iii : nat := 12.

(** ** [DataPlanePacketSourceNN] *)

Module NN.

Definition MSG_TYPE_PORT_ADD : Z := 0.
Definition MSG_TYPE_PORT_REMOVE : Z := 1.
Definition MSG_TYPE_PORT_SET_STATUS : Z := 2.
Definition MSG_TYPE_PACKET_IN : Z := 3.
Definition MSG_TYPE_PACKET_OUT : Z := 4.
Definition MSG_TYPE_INFO_REQ : Z := 5.
Definition MSG_TYPE_INFO_REP : Z := 6.

Definition MSG_INFO_TYPE_HWADDR : Z := 0.
Definition MSG_INFO_TYPE_CTRS : Z := 1.

Definition MSG_INFO_STATUS_SUCCESS : Z := 0.
Definition MSG_INFO_STATUS_NOT_SUPPORTED : Z := 1.

(** The fields [recv] reads or writes.  [cvar_notified] counts the
    [self.cvar.notify_all()] calls made so far. *)
Record source : Type := {
  device_number : nat;
  ports : gset Z;
  mac_addresses : gmap Z (option bytes);
  nn_counters : gmap Z (Z * Z);
  cvar_notified : nat;
}.

Definition store_mac (port_number : Z) (msg : option bytes) (s : source)
  : source :=
  {| device_number := device_number s;
     ports := ports s;
     mac_addresses := <[port_number := msg]> (mac_addresses s);
     nn_counters := nn_counters s;
     cvar_notified := S (cvar_notified s) |}.

Definition store_ctrs (port_number : Z) (c : Z * Z) (s : source) : source :=
  {| device_number := device_number s;
     ports := ports s;
     mac_addresses := mac_addresses s;
     nn_counters := <[port_number := c]> (nn_counters s);
     cvar_notified := S (cvar_notified s) |}.

(** Lifts a pure result into a computation. *)
Definition lift {S A} (r : res A) : M S A := fun s => (r, s).

(** [__handle_info_rep]; [msg] is rebound to [None] on a status other
    than success, and the counters branch unpacks it all the same. *)
Definition handle_info_rep (port_number info_type : Z) (msg : bytes)
  : M source unit :=
  (let! status := lift (unpack_i msg) in
   let msg : option bytes :=
     if decide (status <> MSG_INFO_STATUS_SUCCESS) then None
     else Some (drop calcsize_i msg) in
   if decide (info_type = MSG_INFO_TYPE_HWADDR) then
     modify (store_mac port_number msg)
   else if decide (info_type = MSG_INFO_TYPE_CTRS) then
     match msg with
     | None => raise TypeError
     | Some m =>
         let! c := lift (unpack_ii m) in
         modify (store_ctrs port_number c)
     end
   else ret tt)%py.

(** [recv]: [msg] is what [self.socket.recv()] returned and [now] what
    [time.time()] returns. *)
Definition recv (msg : bytes) (now : Z)
  : M source (option (nat * Z * bytes * Z)) :=
  (let! (msg_type, port_number, more) := lift (unpack_iii msg) in
   let! self := get in
   if decide (port_number ∉ ports self) then ret None
   else
     let hdr_size := calcsize_iii in
     let msg := drop hdr_size msg in
     if decide (msg_type = MSG_TYPE_INFO_REP) then
       exec handle_info_rep port_number more msg then
       ret None
     else if decide (msg_type <> MSG_TYPE_PACKET_OUT) then
       raise AssertionError
     else if decide (Z.of_nat (length msg) <> more) then
       raise AssertionError
     else ret (Some (device_number self, port_number, msg, now)))%py.

End NN.

(** ** [DataPlane] *)

(** A port key [(device_number, port_number)]. *)
Abbreviation port_id := (nat * nat)%type.

(** A received frame as [recv] returns it:
    [(device_number, port_number, pkt, timestamp)]. *)
Abbreviation frame := (nat * nat * bytes * Z)%type.

(** What a port class builds; the engine never looks inside. *)
Record Backend : Type := {
  interface_name : string;
  backend_device : nat;
  backend_port : nat;
}.

(** The port object kept in [self.ports], with the two attributes
    [port_add] stashes on it. *)
Record PortObj : Type := {
  backend : Backend;
  _port_number : nat;
  _device_number : nat;
}.

Record DataPlane : Type := {
  ports : list (port_id * PortObj);
  packet_queues : list (port_id * list (bytes * Z));
  rx_counters : gmap port_id nat;
  tx_counters : gmap port_id nat;
  qlen : nat;
  killed : bool;
  (** [None] when no tap is open, else the records written so far. *)
  pcap_writer : option (list (bytes * Z * nat * nat));
  (** The selected port class; [None] when its constructor raises. *)
  dppclass : string -> nat -> nat -> option Backend;
}.

Definition MAX_QUEUE_LEN : nat := 100.
Definition POLL_MAX_RECENT_PACKETS : nat := 3.

(** [__init__], with the port class and [qlen] already read from the
    configuration. *)
Definition DataPlane_init (cls : string -> nat -> nat -> option Backend)
    (config_qlen : option nat) : DataPlane :=
  {| ports := [];
     packet_queues := [];
     rx_counters := ∅;
     tx_counters := ∅;
     qlen := default MAX_QUEUE_LEN config_qlen;
     killed := false;
     pcap_writer := None;
     dppclass := cls |}.

Definition with_ports (f : list (port_id * PortObj) -> list (port_id * PortObj))
    (dp : DataPlane) : DataPlane :=
  {| ports := f (ports dp);
     packet_queues := packet_queues dp;
     rx_counters := rx_counters dp;
     tx_counters := tx_counters dp;
     qlen := qlen dp;
     killed := killed dp;
     pcap_writer := pcap_writer dp;
     dppclass := dppclass dp |}.

Definition with_packet_queues
    (f : list (port_id * list (bytes * Z)) -> list (port_id * list (bytes * Z)))
    (dp : DataPlane) : DataPlane :=
  {| ports := ports dp;
     packet_queues := f (packet_queues dp);
     rx_counters := rx_counters dp;
     tx_counters := tx_counters dp;
     qlen := qlen dp;
     killed := killed dp;
     pcap_writer := pcap_writer dp;
     dppclass := dppclass dp |}.

Definition with_rx_counters (f : gmap port_id nat -> gmap port_id nat)
    (dp : DataPlane) : DataPlane :=
  {| ports := ports dp;
     packet_queues := packet_queues dp;
     rx_counters := f (rx_counters dp);
     tx_counters := tx_counters dp;
     qlen := qlen dp;
     killed := killed dp;
     pcap_writer := pcap_writer dp;
     dppclass := dppclass dp |}.

Definition with_tx_counters (f : gmap port_id nat -> gmap port_id nat)
    (dp : DataPlane) : DataPlane :=
  {| ports := ports dp;
     packet_queues := packet_queues dp;
     rx_counters := rx_counters dp;
     tx_counters := f (tx_counters dp);
     qlen := qlen dp;
     killed := killed dp;
     pcap_writer := pcap_writer dp;
     dppclass := dppclass dp |}.

Definition with_pcap_writer
    (f : option (list (bytes * Z * nat * nat))
         -> option (list (bytes * Z * nat * nat)))
    (dp : DataPlane) : DataPlane :=
  {| ports := ports dp;
     packet_queues := packet_queues dp;
     rx_counters := rx_counters dp;
     tx_counters := tx_counters dp;
     qlen := qlen dp;
     killed := killed dp;
     pcap_writer := f (pcap_writer dp);
     dppclass := dppclass dp |}.

Definition set_qlen (n : nat) (dp : DataPlane) : DataPlane :=
  {| ports := ports dp;
     packet_queues := packet_queues dp;
     rx_counters := rx_counters dp;
     tx_counters := tx_counters dp;
     qlen := n;
     killed := killed dp;
     pcap_writer := pcap_writer dp;
     dppclass := dppclass dp |}.

(** Reading a [defaultdict(int)]. *)
Definition counter (c : gmap port_id nat) (k : port_id) : nat :=
  default 0 (c !! k).

(** [c[k] += 1] on a [defaultdict(int)]. *)
Definition counter_incr (k : port_id) (c : gmap port_id nat)
  : gmap port_id nat :=
  <[k := counter c k + 1]> c.

(** [if self.pcap_writer: self.pcap_writer.write(...)]. *)
Definition pcap_write (pkt : bytes) (timestamp : Z) (d p : nat)
  : M DataPlane unit :=
  modify (with_pcap_writer (fmap (fun w => w ++ [(pkt, timestamp, d, p)]))).

(** *** The capture loop, [run] *)

(** The body of the [else] branch once [sel.recv()] returned a tuple. *)
Definition enqueue (t : frame) : M DataPlane unit :=
  (let '(device_number, port_number, pkt, timestamp) := t in
   exec pcap_write pkt timestamp device_number port_number then
   let! self := get in
   match dict_get (device_number, port_number) (packet_queues self) with
   | None => raise KeyError
   | Some queue =>
       let! queue :=
         (if qlen self <=? length queue then
            (* Queue full, throw away oldest *)
            match queue with
            | [] => raise IndexError
            | _ :: queue' => ret queue'
            end
          else ret queue) in
       exec modify (with_packet_queues
                      (dict_set (device_number, port_number)
                                (queue ++ [(pkt, timestamp)]))) then
       modify (with_rx_counters (counter_incr (device_number, port_number)))
   end)%py.

(** One member of [sel_in]: the waker, or a packet source together with
    what its [recv()] returns this time. *)
Inductive ready : Type :=
  | Waker
  | Source (t : option frame).

(** [for sel in sel_in: ...] under the lock. *)
Fixpoint run_for (sel_in : list ready) : M DataPlane unit :=
  match sel_in with
  | [] => ret tt
  | sel :: rest =>
      (exec (match sel with
             | Waker => ret tt
             | Source None => ret tt
             | Source (Some t) => enqueue t
             end) then
       run_for rest)%py
  end.

(** What [select.select] does in one round of the loop. *)
Inductive select_result : Type :=
  | SelectError
  | Selected (sel_in : list ready).

(** [run], over the rounds of [select] the thread lives through.  An
    exception leaves the function, and with it the thread. *)
Fixpoint run (rounds : list select_result) : M DataPlane unit :=
  match rounds with
  | [] => ret tt
  | r :: rest =>
      (let! self := get in
       if killed self then ret tt
       else match r with
            | SelectError => ret tt
            | Selected sel_in => exec run_for sel_in then run rest
            end)%py
  end.

(** *** The port registry *)

Definition port_add (iface : string) (device_number port_number : nat)
  : M DataPlane unit :=
  (let port_id := (device_number, port_number) in
   let! self := get in
   match dppclass self iface device_number port_number with
   | None => raise OSError
   | Some b =>
       exec modify (with_ports
                      (dict_set port_id
                         {| backend := b;
                            _port_number := port_number;
                            _device_number := device_number |})) then
       modify (with_packet_queues (dict_set port_id []))
   end)%py.

Definition port_remove (device_number port_number : nat)
  : M DataPlane bool :=
  (let port_id := (device_number, port_number) in
   let! self := get in
   if negb (dict_mem port_id (ports self)) then ret false
   else
     exec modify (with_ports (dict_del port_id)) then
     if dict_mem port_id (packet_queues self) then
       exec modify (with_packet_queues (dict_del port_id)) then
       ret true
     else raise KeyError)%py.

(** [send]; [sent] is what the backend's [send] returns and [now] what
    [time.time()] returns. *)
Definition send (device_number port_number : nat) (packet : bytes)
    (sent : nat) (now : Z) : M DataPlane nat :=
  (let! self := get in
   if negb (dict_mem (device_number, port_number) (ports self)) then ret 0
   else
     exec pcap_write packet now device_number port_number then
     exec modify (with_tx_counters
                    (counter_incr (device_number, port_number))) then
     ret sent)%py.

Definition get_counters (device_number port_number : nat) (dp : DataPlane)
  : nat * nat :=
  (counter (rx_counters dp) (device_number, port_number),
   counter (tx_counters dp) (device_number, port_number)).

(** [flush]: one assignment per key of a snapshot of the keys. *)
Definition flush : M DataPlane unit :=
  (let! self := get in
   modify (fun dp =>
     fold_left (fun dp port_id => with_packet_queues (dict_set port_id []) dp)
               (dict_keys (packet_queues self)) dp))%py.

(** *** [oldest_port_number] and [packets] *)

(** [t < min_time], where [None] stands for [float("inf")]. *)
Definition lt_min_time (t : Z) (min_time : option Z) : bool :=
  match min_time with
  | None => true
  | Some m => bool_decide (t < m)%Z
  end.

(** One round of the [for] loop of [oldest_port_number], on the pair
    [(min_port_number, min_time)]. *)
Definition oldest_round (device : nat) (acc : option nat * option Z)
    (item : port_id * list (bytes * Z)) : option nat * option Z :=
  let '(port_id, queue) := item in
  if decide (port_id.1 <> device) then acc
  else match queue with
       | (_, t) :: _ =>
           if lt_min_time t acc.2 then (Some port_id.2, Some t) else acc
       | [] => acc
       end.

Definition oldest_port_number (dp : DataPlane) (device : nat) : option nat :=
  (fold_left (oldest_round device) (packet_queues dp) (None, None)).1.

(** One turn of the [while True] loop of the generator [packets]:
    [None] when it breaks, the yielded triple otherwise. *)
Definition packets_next (device : nat) (port : option nat)
  : M DataPlane (option (nat * bytes * Z)) :=
  (let! self := get in
   let rcv_port :=
     match port with
     | None => oldest_port_number self device
     | Some p => Some p
     end in
   match rcv_port with
   | None => ret None
   | Some rcv_port =>
       match dict_get (device, rcv_port) (packet_queues self) with
       | None => raise KeyError
       | Some [] => ret None
       | Some ((pkt, time) :: queue) =>
           exec modify (with_packet_queues
                          (dict_set (device, rcv_port) queue)) then
           ret (Some (rcv_port, pkt, time))
       end
   end)%py.

(** The number of frames queued, over all ports: every yield takes one. *)
Definition queued (dp : DataPlane) : nat :=
  sum_list (map (fun kv => length kv.2) (packet_queues dp)).

(** The generator run to its end, at most [fuel] turns. *)
Fixpoint packets_upto (fuel : nat) (device : nat) (port : option nat)
  : M DataPlane (list (nat * bytes * Z)) :=
  match fuel with
  | 0 => ret []
  | S fuel =>
      (let! y := packets_next device port in
       match y with
       | None => ret []
       | Some y =>
           let! ys := packets_upto fuel device port in
           ret (y :: ys)
       end)%py
  end.

(** [list(self.packets(device, port))]. *)
Definition packets (device : nat) (port : option nat)
  : M DataPlane (list (nat * bytes * Z)) :=
  fun dp => packets_upto (S (queued dp)) device port dp.

(** *** [poll] *)

(** The [PollResult] named tuple; a field is [None] for Python's [None]. *)
Record PollResult : Type := {
  device : option nat;
  port : option nat;
  packet : option bytes;
  time : option Z;
}.

(** The two subclasses with the attributes their [__new__] sets. *)
Inductive poll_result : Type :=
  | PollSuccess (t : PollResult) (expected_packet : option expected)
  | PollFailure (t : PollResult) (expected_packet : option expected)
      (recent_packets : list bytes) (packet_count : nat).

Definition PollSuccess_new (device port : nat) (packet : bytes)
    (expected_packet : option expected) (time : Z) : poll_result :=
  PollSuccess {| device := Some device; port := Some port;
                 packet := Some packet; time := Some time |}
              expected_packet.

Definition PollFailure_new (expected_packet : option expected)
    (recent_packets : list bytes) (packet_count : nat) : poll_result :=
  PollFailure {| device := None; port := None; packet := None; time := None |}
              expected_packet recent_packets packet_count.


(** [deque(maxlen=n).append(x)]. *)
Definition deque_append {A} (maxlen : nat) (x : A) (d : list A) : list A :=
  let d := d ++ [x] in
  drop (length d - maxlen) d.

(** The dict [grab_log] of [poll]. *)
Record grab_log : Type := {
  recent_packets : list bytes;
  packet_count : nat;
}.

Definition grab_log_new : grab_log :=
  {| recent_packets := []; packet_count := 0 |}.

Definition grab_log_record (pkt : bytes) (g : grab_log) : grab_log :=
  {| recent_packets :=
       deque_append POLL_MAX_RECENT_PACKETS pkt (recent_packets g);
     packet_count := packet_count g + 1 |}.

(** [filter_check]. *)
Definition filter_check (filters : list (bytes -> bool)) (pkt : bytes) : bool :=
  forallb (fun f => f pkt) filters.

(** The truth value of [exp_pkt]: [None] and an empty byte string are
    false. *)
Definition truthy (exp_pkt : option expected) : bool :=
  match exp_pkt with
  | None => false
  | Some (ExpMask _) => true
  | Some (ExpPkt e) => negb (bool_decide (e = []))
  end.

(** [not exp_pkt or match_exp_pkt(exp_pkt, pkt)]. *)
Definition accepts (exp_pkt : option expected) (pkt : bytes) : bool :=
  match exp_pkt with
  | Some e => negb (truthy exp_pkt) || match_exp_pkt e pkt
  | None => true
  end.

(** The nested function [grab], the generator pulled one frame at a time,
    at most [fuel] times; [g] is [grab_log]. *)
Fixpoint grab_upto (fuel : nat) (device_number : nat)
    (port_number : option nat) (exp_pkt : option expected)
    (filters : list (bytes -> bool)) (g : grab_log)
  : M DataPlane (grab_log * option poll_result) :=
  match fuel with
  | 0 => ret (g, None)
  | S fuel =>
      (let! y := packets_next device_number port_number in
       match y with
       | None => ret (g, None)
       | Some (rcv_port_number, pkt, time) =>
           let rcv_device_number := device_number in
           let g := grab_log_record pkt g in
           if negb (filter_check filters pkt) then
             grab_upto fuel device_number port_number exp_pkt filters g
           else if accepts exp_pkt pkt then
             ret (g, Some (PollSuccess_new rcv_device_number rcv_port_number
                             pkt exp_pkt time))
           else grab_upto fuel device_number port_number exp_pkt filters g
       end)%py
  end.

Definition grab (device_number : nat) (port_number : option nat)
    (exp_pkt : option expected) (filters : list (bytes -> bool))
    (g : grab_log) : M DataPlane (grab_log * option poll_result) :=
  fun dp =>
    grab_upto (S (queued dp)) device_number port_number exp_pkt filters g dp.

(** What may happen to the engine while a caller waits on the condition. *)
Inductive event : Type :=
  | EvPortAdd (iface : string) (device_number port_number : nat)
  | EvPortRemove (device_number port_number : nat)
  | EvFlush
  | EvArrival (t : frame).

(** The engine after one event; an event that raises leaves the engine
    as it was when the exception left the method. *)
Definition after (dp : DataPlane) (ev : event) : DataPlane :=
  match ev with
  | EvPortAdd iface d p => (port_add iface d p dp).2
  | EvPortRemove d p => (port_remove d p dp).2
  | EvFlush => (flush dp).2
  | EvArrival t => (enqueue t dp).2
  end.

Definition after_all (dp : DataPlane) (evs : list event) : DataPlane :=
  fold_left after evs dp.

(** Modelled from the spec: [ptfutils.timed_wait], which is not among the
    sources.  The drain-and-match routine [fn] is called once; on a match
    its value is returned; otherwise the caller waits on the condition and
    every wake re-runs [fn]; when the deadline passes with no match the
    result is [None].  [wakes] lists, for every wake before the deadline,
    the events that reached the engine during the wait. *)
Fixpoint timed_wait {L A} (fn : L -> M DataPlane (L * option A))
    (wakes : list (list event)) (g : L) : M DataPlane (L * option A) :=
  (let! (g, r) := fn g in
   match r with
   | Some v => ret (g, Some v)
   | None =>
       match wakes with
       | [] => ret (g, None)
       | evs :: wakes =>
           exec modify (fun dp => after_all dp evs) then
           timed_wait fn wakes g
       end
   end)%py.

Definition poll (device_number : nat) (port_number : option nat)
    (wakes : list (list event)) (exp_pkt : option expected)
    (filters : list (bytes -> bool)) : M DataPlane poll_result :=
  (let grab_log := grab_log_new in
   let! (grab_log, r) :=
     timed_wait (grab device_number port_number exp_pkt filters)
                wakes grab_log in
   match r with
   | None =>
       ret (PollFailure_new exp_pkt (recent_packets grab_log)
                            (packet_count grab_log))
   | Some r => ret r
   end)%py.

(** *** Concrete pieces for examples *)

(** A port class whose constructor succeeds, as [DataPlanePortLinux] does
    on an interface that exists. *)
Definition DataPlanePortLinux (iface : string) (d p : nat) : option Backend :=
  Some {| interface_name := iface; backend_device := d; backend_port := p |}.

(** An engine with port [(0, 1)] on [eth0] and one frame queued on it. *)
Definition engine_one_frame : DataPlane :=
  after_all (DataPlane_init DataPlanePortLinux None)
    [EvPortAdd "eth0" 0 1; EvArrival (0, 1, [x01; x02]%byte, 7%Z)].

(** Ports [(0, 1)] and [(0, 2)] were added and [(0, 1)] removed again. *)
Definition engine_port_removed : DataPlane :=
  after_all (DataPlane_init DataPlanePortLinux None)
    [EvPortAdd "eth0" 0 1; EvPortAdd "eth1" 0 2; EvPortRemove 0 1].


(** Port [(0, 1)] on an engine configured with [qlen = 3], and five
    frames for it. *)
Definition engine_qlen_three : DataPlane :=
  after_all (DataPlane_init DataPlanePortLinux (Some 3))
    [EvPortAdd "eth0" 0 1].

Definition five_frames : list (bytes * Z) :=
  [([x01]%byte, 1%Z); ([x02]%byte, 2%Z); ([x03]%byte, 3%Z);
   ([x04]%byte, 4%Z); ([x05]%byte, 5%Z)].

(** A nanomsg source of device 0 on which port 1 is registered. *)
Definition nn_source_port_one : NN.source :=
  {| NN.device_number := 0;
     NN.ports := {[ 1%Z ]};
     NN.mac_addresses := ∅;
     NN.nn_counters := ∅;
     NN.cvar_notified := 0 |}.

(** The 12-byte header [<iii] of a message for port 1 with [more = 0],
    of type [PORT_ADD = 0] and of type [PACKET_OUT = 4]. *)
Definition msg_port_add_port_one : bytes :=
  [x00; x00; x00; x00; x01; x00; x00; x00; x00; x00; x00; x00]%byte.

Definition msg_packet_out_port_one : bytes :=
  [x04; x00; x00; x00; x01; x00; x00; x00; x02; x00; x00; x00;
   xaa; xbb]%byte.

(** Ports [(0, 1)] and [(0, 2)], a frame on [(0, 1)] stamped 10 and then
    a frame on [(0, 2)] stamped 5. *)
Definition engine_two_ports : DataPlane :=
  after_all (DataPlane_init DataPlanePortLinux None)
    [EvPortAdd "eth0" 0 1; EvPortAdd "eth1" 0 2;
     EvArrival (0, 1, [x0a]%byte, 10%Z); EvArrival (0, 2, [x05]%byte, 5%Z)].

(** *** Auxiliary functions used to state what the methods do *)

(** The tap after one more record, when a tap is open. *)
Definition tap (pkt : bytes) (timestamp : Z) (d p : nat) (dp : DataPlane)
  : DataPlane :=
  with_pcap_writer (fmap (fun w => w ++ [(pkt, timestamp, d, p)])) dp.

(** The queue that [enqueue] leaves behind for a queue [q], if any. *)
Definition pushed (n : nat) (q : list (bytes * Z)) (x : bytes * Z)
  : option (list (bytes * Z)) :=
  if n <=? length q then
    match q with
    | [] => None
    | _ :: q' => Some (q' ++ [x])
    end
  else Some (q ++ [x]).

(** What [sel_in] holds when one source delivers [frames] for the key
    [(d, p)], one per [recv]. *)
Definition arrivals (d p : nat) (frames : list (bytes * Z)) : list ready :=
  map (fun f => Source (Some (d, p, f.1, f.2))) frames.

(** The invariant of the registry, the queues and the receive counters. *)
Definition engine_inv (dp : DataPlane) : Prop :=
  dict_keys (ports dp) = dict_keys (packet_queues dp)
  /\ NoDup (dict_keys (packet_queues dp))
  /\ forall k q,
       dict_get k (packet_queues dp) = Some q ->
       length q <= qlen dp /\ length q <= counter (rx_counters dp) k.

(** The timestamps of every queue of [device] are nondecreasing. *)
Definition queues_sorted (dp : DataPlane) (device : nat) : Prop :=
  forall p q,
    dict_get (device, p) (packet_queues dp) = Some q -> Sorted Z.le q.*2.

(** Every queue of [device] is empty. *)
Definition queues_empty (dp : DataPlane) (device : nat) : Prop :=
  forall p q, dict_get (device, p) (packet_queues dp) = Some q -> q = [].

(** Every timestamp queued for [device] is at least [lb]. *)
Definition queues_from (dp : DataPlane) (device : nat) (lb : Z) : Prop :=
  forall p q,
    dict_get (device, p) (packet_queues dp) = Some q ->
    Forall (Z.le lb) q.*2.

(** [grab_log] after the frames [pkts] were recorded in turn. *)
Definition log_all (pkts : list bytes) (g : grab_log) : grab_log :=
  fold_left (fun g pkt => grab_log_record pkt g) pkts g.

(** A frame that [grab] records and passes over. *)
Definition rejected (exp_pkt : option expected)
    (filters : list (bytes -> bool)) (y : nat * bytes * Z) : Prop :=
  filter_check filters y.1.2 && accepts exp_pkt y.1.2 = false.

(** [pops device port_number dp ys dp']: the triples [ys] were, one after
    the other, the head of a queue of [device] (the queue of the port
    asked for, when one was) and were removed from it, which leads from
    [dp] to [dp']. *)
Inductive pops (device : nat) (port_number : option nat)
  : DataPlane -> list (nat * bytes * Z) -> DataPlane -> Prop :=
  | pops_nil dp : pops device port_number dp [] dp
  | pops_cons dp p pkt t rest ys dp' :
      port_number = None \/ port_number = Some p ->
      dict_get (device, p) (packet_queues dp) = Some ((pkt, t) :: rest) ->
      pops device port_number
           (with_packet_queues (dict_set (device, p) rest) dp) ys dp' ->
      pops device port_number dp ((p, pkt, t) :: ys) dp'.


(** ** Further methods and auxiliary functions *)

(** [start_pcap]; opening the writer is taken to succeed, and the file
    name only matters to the writer. *)
Definition start_pcap (filename : string) : M DataPlane unit :=
  (let! self := get in
   match pcap_writer self with
   | Some _ => raise AssertionError
   | None => modify (with_pcap_writer (fun _ => Some []))
   end)%py.

(** [stop_pcap]: closes and forgets the writer, when there is one. *)
Definition stop_pcap : M DataPlane unit :=
  (let! self := get in
   match pcap_writer self with
   | Some _ => modify (with_pcap_writer (fun _ => None))
   | None => ret tt
   end)%py.

(** The engine with its tap forgotten. *)
Definition without_tap (dp : DataPlane) : DataPlane :=
  with_pcap_writer (fun _ => None) dp.

(** The timestamps of the frames that arrive in a sequence of events, in
    order. *)
Definition arrival_times (evs : list event) : list Z :=
  omap (fun ev => match ev with
                  | EvArrival (_, _, _, ts) => Some ts
                  | _ => None
                  end) evs.

(** The frames among [ys] that [packets] yielded for port [p]. *)
Definition yielded_for (p : nat) (ys : list (nat * bytes * Z))
  : list (bytes * Z) :=
  omap (fun y => if decide (y.1.1 = p) then Some (y.1.2, y.2) else None) ys.

(** An engine with an open tap, a capacity of one, and port [(0, 1)]
    holding three frames. *)
Definition engine_tapped : DataPlane :=
  set_qlen 1
    (run_for (arrivals 0 1 [([x01]%byte, 1%Z); ([x02]%byte, 2%Z);
                            ([x03]%byte, 3%Z)])
       (start_pcap "capture.pcap" engine_qlen_three).2).2.

(** The frames that the sources of [sel_in] deliver, in order. *)
Definition received (sel_in : list ready) : list frame :=
  omap (fun sel => match sel with
                   | Source (Some t) => Some t
                   | _ => None
                   end) sel_in.

(** The record the tap keeps of a frame. *)
Definition tap_record (t : frame) : bytes * Z * nat * nat :=
  let '(d, p, pkt, ts) := t in (pkt, ts, d, p).

(** Every queue is sorted and all its timestamps satisfy [bound]. *)
Definition stamped_upto (dp : DataPlane) (bound : Z -> Prop) : Prop :=
  forall k q,
    dict_get k (packet_queues dp) = Some q ->
    StronglySorted Z.le q.*2 /\ Forall bound q.*2.

(** ** [struct.pack] for the formats the module uses *)

Definition byte_of_Z (z : Z) : byte :=
  default x00 (Byte.of_N (Z.to_N (z mod 256))).

(** The four bytes of a signed 32-bit integer, least significant first. *)
Definition le_bytes (v : Z) : bytes :=
  let u := (v mod 2 ^ 32)%Z in
  [byte_of_Z u; byte_of_Z (Z.shiftr u 8); byte_of_Z (Z.shiftr u 16);
   byte_of_Z (Z.shiftr u 24)].

(** The values the format [i] accepts. *)
Definition int32 (v : Z) : Prop := (- 2 ^ 31 <= v < 2 ^ 31)%Z.

#[global] Instance int32_dec (v : Z) : Decision (int32 v).
Proof. unfold int32. apply _. Defined.

(** [struct.pack("<i", v)]; a value out of range is a [struct.error]. *)
Definition pack_i (v : Z) : res bytes :=
  if decide (int32 v) then Val (le_bytes v) else Exc StructError.

Definition pack_iii (a b c : Z) : res bytes :=
  match pack_i a, pack_i b, pack_i c with
  | Val x, Val y, Val z => Val (x ++ y ++ z)
  | _, _, _ => Exc StructError
  end.

(** ** [DataPlanePacketSourceNN], the sending side and the queries *)

Module NNPort.

(** The source together with what was handed to [self.socket.send], in
    order. *)
Record endpoint : Type := {
  src : NN.source;
  outbox : list bytes;
}.

Definition on_src (f : NN.source -> NN.source) (e : endpoint) : endpoint :=
  {| src := f (src e); outbox := outbox e |}.

Definition with_ports (f : gset Z -> gset Z) (s : NN.source) : NN.source :=
  {| NN.device_number := NN.device_number s;
     NN.ports := f (NN.ports s);
     NN.mac_addresses := NN.mac_addresses s;
     NN.nn_counters := NN.nn_counters s;
     NN.cvar_notified := NN.cvar_notified s |}.

Definition with_nn_counters (f : gmap Z (Z * Z) -> gmap Z (Z * Z))
    (s : NN.source) : NN.source :=
  {| NN.device_number := NN.device_number s;
     NN.ports := NN.ports s;
     NN.mac_addresses := NN.mac_addresses s;
     NN.nn_counters := f (NN.nn_counters s);
     NN.cvar_notified := NN.cvar_notified s |}.

(** [self.socket.send(msg)], taken to succeed. *)
Definition socket_send (msg : bytes) : M endpoint unit :=
  modify (fun e => {| src := src e; outbox := outbox e ++ [msg] |}).

(** [__send_port_msg]. *)
Definition send_port_msg (msg_type port_number more : Z) : M endpoint unit :=
  (let! hdr := NN.lift (pack_iii msg_type port_number more) in
   socket_send hdr)%py.

Definition send_info_req_msg (port_number info_type : Z) : M endpoint unit :=
  send_port_msg NN.MSG_TYPE_INFO_REQ port_number info_type.

Definition request_mac (port_number : Z) : M endpoint unit :=
  send_info_req_msg port_number NN.MSG_INFO_TYPE_HWADDR.

Definition request_ctrs (port_number : Z) : M endpoint unit :=
  send_info_req_msg port_number NN.MSG_INFO_TYPE_CTRS.

Definition port_add (port_number : Z) : M endpoint unit :=
  (exec modify (on_src (with_ports (fun ps => ps ∪ {[ port_number ]}))) then
   send_port_msg NN.MSG_TYPE_PORT_ADD port_number 0)%py.

(** [set.remove] raises [KeyError] for an element that is not there. *)
Definition port_remove (port_number : Z) : M endpoint unit :=
  (let! self := get in
   if decide (port_number ∈ NN.ports (src self)) then
     exec modify (on_src (with_ports (fun ps => ps ∖ {[ port_number ]}))) then
     send_port_msg NN.MSG_TYPE_PORT_REMOVE port_number 0
   else raise KeyError)%py.

Definition MSG_PORT_STATUS_UP : Z := 0.
Definition MSG_PORT_STATUS_DOWN : Z := 1.

Definition port_bring_up (port_number : Z) : M endpoint unit :=
  send_port_msg NN.MSG_TYPE_PORT_SET_STATUS port_number MSG_PORT_STATUS_UP.

Definition port_bring_down (port_number : Z) : M endpoint unit :=
  send_port_msg NN.MSG_TYPE_PORT_SET_STATUS port_number MSG_PORT_STATUS_DOWN.

(** [send]: the header and the packet are packed into one message. *)
Definition send (port_number : Z) (packet : bytes) : M endpoint nat :=
  (let! hdr := NN.lift (pack_iii NN.MSG_TYPE_PACKET_IN port_number
                                 (Z.of_nat (length packet))) in
   let msg := hdr ++ packet in
   exec socket_send msg then
   ret (length packet))%py.

(** What the capture thread does to the source while a caller waits on
    [self.cvar]: it calls [recv] on every message that came in, each with
    the time it was read; an exception there stays in that thread. *)
Definition deliver (inbound : list (bytes * Z)) : M endpoint unit :=
  modify (on_src (fun s =>
            fold_left (fun s m => (NN.recv m.1 m.2 s).2) inbound s)).

(** The loop of [get_info].  [cache] selects the dictionary that was
    passed; [rounds] gives, for every wait on the condition, the messages
    that came in during the wait and what [time.time()] returns after it.
    The outer [None] says that [rounds] ends before the loop does; the
    inner value is what [cache.get(port_number, None)] returns. *)
Fixpoint get_info_loop {V} (port_number : Z)
    (cache : NN.source -> gmap Z V) (send_request : Z -> M endpoint unit)
    (end_time time_remaining : Z) (rounds : list (list (bytes * Z) * Z))
  : M endpoint (option (option V)) :=
  fun self =>
    match cache (src self) !! port_number with
    | Some v => (Val (Some (Some v)), self)
    | None =>
        if (0 <? time_remaining)%Z then
          match rounds with
          | [] => (Val None, self)
          | (inbound, clock) :: rounds =>
              (exec send_request port_number then
               exec deliver inbound then
               get_info_loop port_number cache send_request end_time
                             (end_time - clock) rounds)%py self
          end
        else (Val (Some None), self)
    end.

(** [get_info]; [clock0] and [clock1] are the first two readings of
    [time.time()]. *)
Definition get_info {V} (port_number : Z) (cache : NN.source -> gmap Z V)
    (send_request : Z -> M endpoint unit) (timeout clock0 clock1 : Z)
    (rounds : list (list (bytes * Z) * Z))
  : M endpoint (option (option V)) :=
  let end_time := (clock0 + timeout)%Z in
  get_info_loop port_number cache send_request end_time
                (end_time - clock1) rounds.

(** What [cache.get(port_number, None)] is worth for the MAC cache: a
    stored [None] and a missing entry both give [None]. *)
Definition mac_value (v : option (option bytes)) : option bytes :=
  match v with
  | Some a => a
  | None => None
  end.

Definition get_mac (port_number timeout clock0 clock1 : Z)
    (rounds : list (list (bytes * Z) * Z))
  : M endpoint (option (option bytes)) :=
  (let! r := get_info port_number NN.mac_addresses request_mac
                      timeout clock0 clock1 rounds in
   ret (option_map mac_value r))%py.

Definition get_nn_counters (port_number timeout clock0 clock1 : Z)
    (rounds : list (list (bytes * Z) * Z))
  : M endpoint (option (option (Z * Z))) :=
  (let! self := get in
   exec (if decide (is_Some (NN.nn_counters (src self) !! port_number)) then
           modify (on_src (with_nn_counters (delete port_number)))
         else ret tt) then
   get_info port_number NN.nn_counters request_ctrs
            timeout clock0 clock1 rounds)%py.

End NNPort.

(** An endpoint on [nn_source_port_one] that has sent nothing. *)
Definition nn_endpoint_port_one : NNPort.endpoint :=
  {| NNPort.src := nn_source_port_one; NNPort.outbox := [] |}.

(** An [INFO_REP] for port 1 that answers a hardware-address request with
    status 0 and the address [02:00:00:00:00:01]. *)
Definition msg_mac_reply_port_one : bytes :=
  [x06; x00; x00; x00; x01; x00; x00; x00; x00; x00; x00; x00;
   x00; x00; x00; x00; x02; x00; x00; x00; x00; x01]%byte.

(** An [INFO_REP] for port 1 that answers a counters request with status 1
    (not supported). *)
Definition msg_ctrs_refused_port_one : bytes :=
  [x06; x00; x00; x00; x01; x00; x00; x00; x01; x00; x00; x00;
   x01; x00; x00; x00]%byte.

(** The deadline of [get_info] passes within [rounds]: the time that
    remains is not positive at the start or after one of the waits. *)
Fixpoint expires (end_time time_remaining : Z)
    (rounds : list (list (bytes * Z) * Z)) : Prop :=
  (time_remaining <= 0)%Z
  \/ match rounds with
     | [] => False
     | (_, clock) :: rounds => expires end_time (end_time - clock) rounds
     end.

(** ** [DataPlane.__init__]: the choice of the port class *)

(** The port classes of the module, and a class handed in by the
    configuration. *)
Inductive port_class : Type :=
  | ClsDataPlanePortNN
  | ClsCustom (cls : string -> nat -> nat -> option Backend)
  | ClsDataPlanePortLinux
  | ClsDataPlanePortPcap
  | ClsDataPlanePort.

(** The keys of [config] that [__init__] reads: [None] for a key that is
    missing; [cfg_dataplane] is [Some None] for a [dataplane] dictionary
    without [portclass]. *)
Record config : Type := {
  cfg_platform : option string;
  cfg_dataplane :
    option (option (string -> nat -> nat -> option Backend));
  cfg_qlen : option nat;
}.

(** What [__init__] reads of the host: whether [nnpy] could be imported
    and whether [sys.platform] contains [linux]. *)
Record host : Type := {
  with_nnpy : bool;
  on_linux : bool;
}.

(** The module constant, the import being commented out. *)
Definition have_pypcap : bool := false.

Definition select_dppclass (cfg : config) (h : host) : res port_class :=
  match cfg_platform cfg with
  | None => Exc KeyError
  | Some platform =>
      if String.eqb platform "nn" then
        if with_nnpy h then Val ClsDataPlanePortNN else Exc AssertionError
      else
        match cfg_dataplane cfg with
        | Some (Some cls) => Val (ClsCustom cls)
        | _ =>
            if on_linux h then Val ClsDataPlanePortLinux
            else if have_pypcap then Val ClsDataPlanePortPcap
            else Val ClsDataPlanePort
        end
  end.

(** [DataPlane(config)]: [None] stands for the default argument, which
    becomes the empty dictionary.  [construct] gives the constructor of
    each class. *)
Definition DataPlane_new
    (construct : port_class -> string -> nat -> nat -> option Backend)
    (cfg : option config) (h : host) : res DataPlane :=
  let cfg := default {| cfg_platform := None; cfg_dataplane := None;
                        cfg_qlen := None |} cfg in
  match select_dppclass cfg h with
  | Exc e => Exc e
  | Val cls => Val (DataPlane_init (construct cls) (cfg_qlen cfg))
  end.

(** ** The capture loop over several rounds *)





(** Ports [(0, 1)] and [(0, 2)] on an engine configured with [qlen = 3],
    and rounds of the capture loop in which five frames for [(0, 1)] come
    in among a wake-up, a no-data result and a frame for [(0, 2)]; the
    frame after the failure of [select] is never read. *)
Definition engine_two_ports_qlen_three : DataPlane :=
  after_all (DataPlane_init DataPlanePortLinux (Some 3))
    [EvPortAdd "eth0" 0 1; EvPortAdd "eth1" 0 2].

Definition five_frames_in_rounds : list select_result :=
  [Selected [Waker; Source (Some (0, 1, [x01]%byte, 1%Z)); Source None;
             Source (Some (0, 2, [xaa]%byte, 2%Z))];
   Selected [Source (Some (0, 1, [x02]%byte, 2%Z));
             Source (Some (0, 1, [x03]%byte, 3%Z))];
   Selected [];
   Selected [Source (Some (0, 1, [x04]%byte, 4%Z)); Waker;
             Source (Some (0, 1, [x05]%byte, 5%Z))];
   SelectError;
   Selected [Source (Some (0, 1, [x06]%byte, 6%Z))]].

(** ** Draining a device by the oldest head *)

(** [oldest_pops device dp ys dp']: the triples [ys] were taken one after
    the other, each the head of a queue of [device] whose timestamp was
    the least among the heads of the queues of [device] at that moment,
    and each was removed from its queue, which leads from [dp] to
    [dp']. *)
Inductive oldest_pops (device : nat)
  : DataPlane -> list (nat * bytes * Z) -> DataPlane -> Prop :=
  | oldest_pops_nil dp : oldest_pops device dp [] dp
  | oldest_pops_cons dp p pkt t rest ys dp' :
      dict_get (device, p) (packet_queues dp) = Some ((pkt, t) :: rest) ->
      (forall p' pkt' t' rest',
          dict_get (device, p') (packet_queues dp)
          = Some ((pkt', t') :: rest') -> (t <= t')%Z) ->
      oldest_pops device
                  (with_packet_queues (dict_set (device, p) rest) dp) ys dp' ->
      oldest_pops device dp ((p, pkt, t) :: ys) dp'.

(** [n] calls of [poll(device_number)] in a row, with no [exp_pkt], no
    filter and no wake-up before the deadline; the results in order. *)
Fixpoint polls (n : nat) (device_number : nat)
  : M DataPlane (list poll_result) :=
  match n with
  | 0 => ret []
  | S n =>
      (let! r := poll device_number None [] None [] in
       let! rs := polls n device_number in
       ret (r :: rs))%py
  end.

(** The successful result that holds the triple [y] of [device_number]
    and no expected packet. *)
Definition success_of (device_number : nat) (y : nat * bytes * Z)
  : poll_result :=
  PollSuccess {| device := Some device_number; port := Some y.1.1;
                 packet := Some y.1.2; time := Some y.2 |}
              None.

(** * Properties *)

(** ** Tactics for the state-and-exception computations *)

Ltac unfold_py :=
  unfold bind, ret, raise, get, modify, NN.lift in *.

(** ** [match_exp_pkt] *)

Lemma match_exp_pkt_bytes (e p : bytes) :
  match_exp_pkt (ExpPkt e) p = true <->
  e = (if length e <? 60 then take (length e) p else p).
Proof.
  unfold match_exp_pkt. cbv zeta.
  rewrite bool_decide_eq_true. reflexivity.
Qed.

(** C1.  A mask decides by itself and an invalid mask never matches; an
    expected byte string shorter than 60 bytes matches exactly the frames
    it is a prefix of, so that bytes of the frame past its length are
    ignored; one of 60 bytes or more matches only itself; every byte
    string matches itself. *)
Theorem match_exp_pkt_spec :
  (forall (m : Mask) (p : bytes),
      match_exp_pkt (ExpMask m) p
      = if is_valid m then pkt_match m p else false)
  /\ (forall e p : bytes,
         length e < 60 ->
         (match_exp_pkt (ExpPkt e) p = true <-> e = take (length e) p))
  /\ (forall e trailing : bytes,
         length e < 60 -> match_exp_pkt (ExpPkt e) (e ++ trailing) = true)
  /\ (forall e p : bytes,
         60 <= length e -> (match_exp_pkt (ExpPkt e) p = true <-> e = p))
  /\ (forall x : bytes, match_exp_pkt (ExpPkt x) x = true).
Proof.
  split; [ | split; [ | split; [ | split]]].
  - intros [[] f] p; reflexivity.
  - intros e p Hlt. rewrite match_exp_pkt_bytes.
    destruct (Nat.ltb_spec (length e) 60); [tauto | lia].
  - intros e trailing Hlt. apply match_exp_pkt_bytes.
    destruct (Nat.ltb_spec (length e) 60); [ | lia].
    now rewrite take_app_length.
  - intros e p Hge. rewrite match_exp_pkt_bytes.
    destruct (Nat.ltb_spec (length e) 60); [lia | tauto].
  - intros x. apply match_exp_pkt_bytes.
    destruct (length x <? 60); [ | reflexivity].
    now rewrite firstn_all.
Qed.

(** C10.  A frame strictly shorter than the expected byte string never
    matches, on either side of the 60-byte threshold. *)
Theorem match_exp_pkt_short_frame (e p : bytes) :
  length p < length e -> match_exp_pkt (ExpPkt e) p = false.
Proof.
  intros Hlen.
  destruct (match_exp_pkt (ExpPkt e) p) eqn:Hm; [ | reflexivity].
  apply match_exp_pkt_bytes in Hm.
  apply (f_equal length) in Hm.
  destruct (length e <? 60).
  - rewrite length_take in Hm. lia.
  - lia.
Qed.

Lemma match_exp_pkt_short_frame_witness :
  match_exp_pkt (ExpPkt [x01; x02; x03]%byte) [x01; x02]%byte = false.
Proof.
  apply match_exp_pkt_short_frame. simpl. lia.
Defined.

(** ** Dictionaries *)

Section PyDictFacts.
Context {K V : Type} `{EqDecision K}.
Implicit Types (k : K) (v : V) (d : list (K * V)).

Lemma dict_get_set_eq k v d : dict_get k (dict_set k v d) = Some v.
Proof.
  induction d as [|[k' v'] d IH]; simpl.
  - now rewrite decide_True.
  - destruct (decide (k = k')) as [->|Hne]; simpl.
    + now rewrite decide_True.
    + now rewrite decide_False.
Qed.

Lemma dict_get_set_ne k k' v d :
  k <> k' -> dict_get k' (dict_set k v d) = dict_get k' d.
Proof.
  intros Hne. induction d as [|[k0 v0] d IH]; simpl.
  - rewrite decide_False; [reflexivity | congruence].
  - destruct (decide (k = k0)) as [->|Hk]; simpl.
    + rewrite !decide_False; [reflexivity | congruence ..].
    + destruct (decide (k' = k0)); [reflexivity | exact IH].
Qed.

Lemma dict_get_set k k' v d :
  dict_get k' (dict_set k v d)
  = if decide (k = k') then Some v else dict_get k' d.
Proof.
  destruct (decide (k = k')) as [->|Hne].
  - apply dict_get_set_eq.
  - now apply dict_get_set_ne.
Qed.

Lemma dict_get_del_eq k d : dict_get k (dict_del k d) = None.
Proof.
  induction d as [|[k' v'] d IH]; simpl; [reflexivity | ].
  destruct (decide (k = k')) as [->|Hne]; simpl; [exact IH | ].
  now rewrite decide_False.
Qed.

Lemma dict_get_del_ne k k' d :
  k <> k' -> dict_get k' (dict_del k d) = dict_get k' d.
Proof.
  intros Hne. induction d as [|[k0 v0] d IH]; simpl; [reflexivity | ].
  destruct (decide (k = k0)) as [->|Hk]; simpl.
  - rewrite decide_False; [exact IH | congruence].
  - destruct (decide (k' = k0)); [reflexivity | exact IH].
Qed.

Lemma dict_get_is_Some k d : is_Some (dict_get k d) <-> k ∈ dict_keys d.
Proof.
  unfold dict_keys. induction d as [|[k' v'] d IH]; simpl.
  - split; [intros [? ?]; discriminate | intros Hin; inversion Hin].
  - rewrite elem_of_cons. destruct (decide (k = k')) as [->|Hne].
    + split; [now left | intros _; eexists; reflexivity].
    + rewrite IH. split; [now right | intros [?|?]; [congruence | assumption]].
Qed.

Lemma dict_get_None k d : dict_get k d = None <-> k ∉ dict_keys d.
Proof.
  rewrite <- dict_get_is_Some, eq_None_not_Some. reflexivity.
Qed.

Lemma dict_mem_true k d : dict_mem k d = true <-> k ∈ dict_keys d.
Proof.
  unfold dict_mem. rewrite bool_decide_eq_true. apply dict_get_is_Some.
Qed.

Lemma dict_get_elem_of k v d : dict_get k d = Some v -> (k, v) ∈ d.
Proof.
  induction d as [|[k' v'] d IH]; simpl; [discriminate | ].
  destruct (decide (k = k')) as [->|Hne].
  - intros [= ->]. left.
  - intros Hget. right. auto.
Qed.

Lemma dict_elem_of_get k v d :
  NoDup (dict_keys d) -> (k, v) ∈ d -> dict_get k d = Some v.
Proof.
  unfold dict_keys. induction d as [|[k' v'] d IH]; simpl.
  - intros _ Hin. inversion Hin.
  - rewrite NoDup_cons. intros [Hnotin Hnd] Hin.
    apply elem_of_cons in Hin as [[= -> ->]|Hin].
    + now rewrite decide_True.
    + destruct (decide (k = k')) as [->|Hne]; [ | auto].
      exfalso. apply Hnotin.
      apply list_elem_of_fmap. exists (k', v). split; [reflexivity | assumption].
Qed.

(** The keys after an assignment depend on the keys before only. *)
Lemma dict_keys_set {V'} k v (v' : V') d (d' : list (K * V')) :
  dict_keys d = dict_keys d' ->
  dict_keys (dict_set k v d) = dict_keys (dict_set k v' d').
Proof.
  unfold dict_keys. revert d'.
  induction d as [|[k0 v0] d IH]; intros [|[k1 v1] d']; simpl;
    try discriminate; [reflexivity | ].
  intros [= -> Hrest].
  destruct (decide (k = k1)); simpl; f_equal; auto.
Qed.

Lemma dict_keys_del {V'} k d (d' : list (K * V')) :
  dict_keys d = dict_keys d' ->
  dict_keys (dict_del k d) = dict_keys (dict_del k d').
Proof.
  unfold dict_keys. revert d'.
  induction d as [|[k0 v0] d IH]; intros [|[k1 v1] d']; simpl;
    try discriminate; [reflexivity | ].
  intros [= -> Hrest].
  destruct (decide (k = k1)); simpl; [ | f_equal]; auto.
Qed.

Lemma dict_keys_set_present k v d :
  k ∈ dict_keys d -> dict_keys (dict_set k v d) = dict_keys d.
Proof.
  unfold dict_keys. induction d as [|[k0 v0] d IH]; simpl.
  - intros Hin. inversion Hin.
  - rewrite elem_of_cons. intros Hin.
    destruct (decide (k = k0)) as [->|Hne]; simpl; [reflexivity | ].
    f_equal. apply IH. destruct Hin; [congruence | assumption].
Qed.

Lemma dict_keys_set_elem k k' v d :
  k' ∈ dict_keys (dict_set k v d) <-> k' = k \/ k' ∈ dict_keys d.
Proof.
  rewrite <- !dict_get_is_Some, dict_get_set.
  destruct (decide (k = k')) as [->|Hne].
  - split; [now left | intros _; eexists; reflexivity].
  - split; [now right | intros [?|?]; [congruence | assumption]].
Qed.

Lemma dict_keys_del_elem k k' d :
  k' ∈ dict_keys (dict_del k d) <-> k' <> k /\ k' ∈ dict_keys d.
Proof.
  rewrite <- !dict_get_is_Some.
  destruct (decide (k = k')) as [->|Hne].
  - rewrite dict_get_del_eq. split; [intros [? ?]; discriminate | tauto].
  - rewrite dict_get_del_ne by assumption. split; [ | tauto].
    intros Hs. split; [congruence | assumption].
Qed.

Lemma dict_set_NoDup k v d :
  NoDup (dict_keys d) -> NoDup (dict_keys (dict_set k v d)).
Proof.
  unfold dict_keys. induction d as [|[k0 v0] d IH]; simpl.
  - intros _. apply NoDup_singleton.
  - rewrite NoDup_cons. intros [Hnotin Hnd].
    destruct (decide (k = k0)) as [->|Hne]; simpl.
    + apply NoDup_cons. split; assumption.
    + apply NoDup_cons. split; [ | auto].
      intros Hin. apply Hnotin.
      apply (dict_keys_set_elem k k0 v d) in Hin as [?|?];
        [congruence | assumption].
Qed.

Lemma dict_del_NoDup k d :
  NoDup (dict_keys d) -> NoDup (dict_keys (dict_del k d)).
Proof.
  unfold dict_keys. induction d as [|[k0 v0] d IH]; simpl.
  - intros _. apply NoDup_nil_2.
  - rewrite NoDup_cons. intros [Hnotin Hnd].
    destruct (decide (k = k0)) as [->|Hne]; simpl; [auto | ].
    apply NoDup_cons. split; [ | auto].
    intros Hin. apply Hnotin.
    now apply (dict_keys_del_elem k k0 d) in Hin as [_ ?].
Qed.
End PyDictFacts.

Lemma dict_mem_keys {K V V'} `{EqDecision K} (k : K) (d : list (K * V))
    (d' : list (K * V')) :
  dict_keys d = dict_keys d' -> dict_mem k d = dict_mem k d'.
Proof.
  intros Hkeys.
  destruct (dict_mem k d) eqn:Ha, (dict_mem k d') eqn:Hb; try reflexivity.
  - apply dict_mem_true in Ha. rewrite Hkeys in Ha.
    apply dict_mem_true in Ha. congruence.
  - apply dict_mem_true in Hb. rewrite <- Hkeys in Hb.
    apply dict_mem_true in Hb. congruence.
Qed.

(** ** The engine: how each method changes the state *)

Lemma enqueue_unfold (d p : nat) (pkt : bytes) (ts : Z) (dp : DataPlane) :
  enqueue (d, p, pkt, ts) dp
  = match dict_get (d, p) (packet_queues dp) with
    | None => (Exc KeyError, tap pkt ts d p dp)
    | Some q =>
        match pushed (qlen dp) q (pkt, ts) with
        | None => (Exc IndexError, tap pkt ts d p dp)
        | Some q' =>
            (Val tt,
             with_rx_counters (counter_incr (d, p))
               (with_packet_queues (dict_set (d, p) q') (tap pkt ts d p dp)))
        end
    end.
Proof.
  unfold enqueue, pcap_write, pushed, tap. unfold_py. simpl.
  destruct (dict_get (d, p) (packet_queues dp)) as [q|]; [ | reflexivity].
  destruct (qlen dp <=? length q); [ | reflexivity].
  destruct q; reflexivity.
Qed.

Lemma pushed_length (n : nat) (q q' : list (bytes * Z)) (x : bytes * Z) :
  pushed n q x = Some q' -> length q <= n -> length q' <= n.
Proof.
  unfold pushed. destruct (Nat.leb_spec n (length q)) as [Hfull|Hroom].
  - destruct q as [|y q]; [discriminate | ].
    intros [= <-] Hle. rewrite length_app. simpl in *. lia.
  - intros [= <-] _. rewrite length_app. simpl. lia.
Qed.

Lemma pushed_length_S (n : nat) (q q' : list (bytes * Z)) (x : bytes * Z) :
  pushed n q x = Some q' -> length q' <= S (length q).
Proof.
  unfold pushed. destruct (n <=? length q).
  - destruct q as [|y q]; [discriminate | ].
    intros [= <-]. rewrite length_app. simpl. lia.
  - intros [= <-]. rewrite length_app. simpl. lia.
Qed.

(** With room for at least one frame the push always succeeds and keeps
    the last [n] entries. *)
Lemma pushed_drop (n : nat) (q : list (bytes * Z)) (x : bytes * Z) :
  1 <= n -> length q <= n ->
  pushed n q x = Some (drop (length (q ++ [x]) - n) (q ++ [x])).
Proof.
  intros Hn Hle. unfold pushed. rewrite length_app. simpl.
  destruct (Nat.leb_spec n (length q)) as [Hfull|Hroom].
  - destruct q as [|y q]; simpl in *; [lia | ].
    replace (S (length q + 1) - n) with 1 by lia. reflexivity.
  - replace (length q + 1 - n) with 0 by lia. reflexivity.
Qed.

Lemma counter_incr_eq (k : port_id) (c : gmap port_id nat) :
  counter (counter_incr k c) k = counter c k + 1.
Proof.
  unfold counter, counter_incr. now rewrite lookup_insert_eq.
Qed.

Lemma counter_incr_ne (k k' : port_id) (c : gmap port_id nat) :
  k <> k' -> counter (counter_incr k c) k' = counter c k'.
Proof.
  intros Hne. unfold counter, counter_incr.
  now rewrite lookup_insert_ne.
Qed.

Lemma port_add_unfold (iface : string) (d p : nat) (dp : DataPlane) :
  port_add iface d p dp
  = match dppclass dp iface d p with
    | None => (Exc OSError, dp)
    | Some b =>
        (Val tt,
         with_packet_queues (dict_set (d, p) [])
           (with_ports
              (dict_set (d, p)
                 {| backend := b; _port_number := p; _device_number := d |})
              dp))
    end.
Proof.
  unfold port_add. unfold_py.
  destruct (dppclass dp iface d p); reflexivity.
Qed.

Lemma port_remove_unfold (d p : nat) (dp : DataPlane) :
  port_remove d p dp
  = if dict_mem (d, p) (ports dp) then
      if dict_mem (d, p) (packet_queues dp) then
        (Val true,
         with_packet_queues (dict_del (d, p)) (with_ports (dict_del (d, p)) dp))
      else (Exc KeyError, with_ports (dict_del (d, p)) dp)
    else (Val false, dp).
Proof.
  unfold port_remove. unfold_py.
  destruct (dict_mem (d, p) (ports dp)); simpl; [ | reflexivity].
  destruct (dict_mem (d, p) (packet_queues dp)); reflexivity.
Qed.

(** The loop of [flush] over any list of keys that have a queue. *)
Lemma flush_loop (ks : list port_id) (dp : DataPlane) :
  (forall k, k ∈ ks -> k ∈ dict_keys (packet_queues dp)) ->
  let dp' :=
    fold_left (fun dp port_id => with_packet_queues (dict_set port_id []) dp)
              ks dp in
  ports dp' = ports dp
  /\ rx_counters dp' = rx_counters dp
  /\ tx_counters dp' = tx_counters dp
  /\ qlen dp' = qlen dp
  /\ killed dp' = killed dp
  /\ pcap_writer dp' = pcap_writer dp
  /\ dppclass dp' = dppclass dp
  /\ dict_keys (packet_queues dp') = dict_keys (packet_queues dp)
  /\ forall k,
       dict_get k (packet_queues dp')
       = if decide (k ∈ ks) then Some [] else dict_get k (packet_queues dp).
Proof.
  revert dp. induction ks as [|k0 ks IH]; intros dp Hks; simpl.
  - repeat split; reflexivity.
  - set (dp1 := with_packet_queues (dict_set k0 []) dp).
    assert (Hkeys1 : dict_keys (packet_queues dp1) = dict_keys (packet_queues dp)).
    { simpl. apply dict_keys_set_present, Hks. left. }
    destruct (IH dp1) as (Hp & Hrx & Htx & Hq & Hk & Hw & Hc & Hkeys & Hget).
    { intros k Hin. rewrite Hkeys1. apply Hks. now right. }
    split; [exact Hp | ]. split; [exact Hrx | ]. split; [exact Htx | ].
    split; [exact Hq | ]. split; [exact Hk | ]. split; [exact Hw | ].
    split; [exact Hc | ]. split; [now rewrite Hkeys | ].
    intros k. rewrite Hget. simpl. rewrite dict_get_set.
    destruct (decide (k ∈ ks)) as [Hin|Hnin].
    + rewrite decide_True; [reflexivity | now right].
    + destruct (decide (k0 = k)) as [->|Hne].
      * rewrite decide_True; [reflexivity | left].
      * rewrite decide_False; [reflexivity | ].
        intros Hin. apply elem_of_cons in Hin as [?|?]; congruence.
Qed.

(** ** [flush] *)

(** What [flush] changes and what it leaves alone. *)
Lemma flush_effect (dp : DataPlane) :
  (flush dp).1 = Val tt
  /\ (forall k, k ∈ dict_keys (packet_queues dp) ->
                dict_get k (packet_queues (flush dp).2) = Some [])
  /\ dict_keys (packet_queues (flush dp).2) = dict_keys (packet_queues dp)
  /\ ports (flush dp).2 = ports dp
  /\ rx_counters (flush dp).2 = rx_counters dp
  /\ tx_counters (flush dp).2 = tx_counters dp
  /\ qlen (flush dp).2 = qlen dp
  /\ killed (flush dp).2 = killed dp
  /\ pcap_writer (flush dp).2 = pcap_writer dp
  /\ dppclass (flush dp).2 = dppclass dp.
Proof.
  unfold flush. unfold_py. simpl.
  destruct (flush_loop (dict_keys (packet_queues dp)) dp)
    as (Hp & Hrx & Htx & Hq & Hk & Hw & Hc & Hkeys & Hget);
    [auto | ].
  split; [reflexivity | ].
  split; [ | tauto].
  intros k Hin. rewrite Hget. now rewrite decide_True.
Qed.

(** C9.  [flush] returns normally, leaves every queue empty under the same
    keys, and changes neither the port registry, nor a receive or transmit
    counter, nor any other field of the engine. *)
Theorem flush_frame (dp : DataPlane) :
  (flush dp).1 = Val tt
  /\ (forall k, k ∈ dict_keys (packet_queues dp) ->
                dict_get k (packet_queues (flush dp).2) = Some [])
  /\ dict_keys (packet_queues (flush dp).2) = dict_keys (packet_queues dp)
  /\ ports (flush dp).2 = ports dp
  /\ rx_counters (flush dp).2 = rx_counters dp
  /\ tx_counters (flush dp).2 = tx_counters dp
  /\ qlen (flush dp).2 = qlen dp
  /\ killed (flush dp).2 = killed dp
  /\ pcap_writer (flush dp).2 = pcap_writer dp
  /\ dppclass (flush dp).2 = dppclass dp.
Proof. exact (flush_effect dp). Qed.

(** ** [port_add] *)

(** C6, as stated, fails: adding a key that is registered succeeds, and
    the frame that was queued under it is gone. *)
Lemma port_add_existing_key_succeeds :
  dict_mem (0, 1) (ports engine_one_frame) = true
  /\ dict_get (0, 1) (packet_queues engine_one_frame)
     = Some [([x01; x02]%byte, 7%Z)]
  /\ (port_add "eth1" 0 1 engine_one_frame).1 = Val tt
  /\ dict_get (0, 1) (packet_queues (port_add "eth1" 0 1 engine_one_frame).2)
     = Some []
  /\ backend <$> dict_get (0, 1) (ports (port_add "eth1" 0 1 engine_one_frame).2)
     = DataPlanePortLinux "eth1" 0 1.
Proof. repeat split; vm_compute; reflexivity. Qed.

(** C6, amended.  [port_add] does not look the key up.  When the port
    class builds a backend, [port_add] returns normally with that backend
    and an empty queue stored under the key, whether or not the key was
    registered before; every other key keeps its backend and its queue,
    and no counter changes. *)
Theorem port_add_spec (iface : string) (d p : nat) (b : Backend)
    (dp : DataPlane) :
  dppclass dp iface d p = Some b ->
  (port_add iface d p dp).1 = Val tt
  /\ dict_get (d, p) (ports (port_add iface d p dp).2)
     = Some {| backend := b; _port_number := p; _device_number := d |}
  /\ dict_get (d, p) (packet_queues (port_add iface d p dp).2) = Some []
  /\ (forall k, k <> (d, p) ->
        dict_get k (ports (port_add iface d p dp).2) = dict_get k (ports dp)
        /\ dict_get k (packet_queues (port_add iface d p dp).2)
           = dict_get k (packet_queues dp))
  /\ rx_counters (port_add iface d p dp).2 = rx_counters dp
  /\ tx_counters (port_add iface d p dp).2 = tx_counters dp.
Proof.
  intros Hcls. rewrite port_add_unfold, Hcls. simpl.
  rewrite !dict_get_set_eq.
  repeat split; try reflexivity;
    apply dict_get_set_ne; congruence.
Qed.

Lemma port_add_spec_witness :
  (port_add "eth1" 0 1 engine_one_frame).1 = Val tt
  /\ dict_get (0, 1) (ports (port_add "eth1" 0 1 engine_one_frame).2)
     = Some {| backend := {| interface_name := "eth1"; backend_device := 0;
                             backend_port := 1 |};
               _port_number := 1; _device_number := 0 |}
  /\ dict_get (0, 1) (packet_queues (port_add "eth1" 0 1 engine_one_frame).2)
     = Some []
  /\ (forall k, k <> (0, 1) ->
        dict_get k (ports (port_add "eth1" 0 1 engine_one_frame).2)
        = dict_get k (ports engine_one_frame)
        /\ dict_get k (packet_queues (port_add "eth1" 0 1 engine_one_frame).2)
           = dict_get k (packet_queues engine_one_frame))
  /\ rx_counters (port_add "eth1" 0 1 engine_one_frame).2
     = rx_counters engine_one_frame
  /\ tx_counters (port_add "eth1" 0 1 engine_one_frame).2
     = tx_counters engine_one_frame.
Proof.
  apply (port_add_spec "eth1" 0 1). reflexivity.
Defined.

(** ** The capture loop *)

Lemma enqueue_unregistered (d p : nat) (pkt : bytes) (ts : Z) (dp : DataPlane) :
  dict_get (d, p) (packet_queues dp) = None ->
  (enqueue (d, p, pkt, ts) dp).1 = Exc KeyError.
Proof. intros Hnone. now rewrite enqueue_unfold, Hnone. Qed.

(** C5 fails on the code.  A frame received for a key that has no queue
    makes the lookup [self.packet_queues[...]] raise [KeyError]; the
    exception leaves [run], so the frames that follow, here for the
    registered port [(0, 2)], are never enqueued. *)
Theorem run_frame_for_removed_port_raises :
  dict_get (0, 1) (packet_queues engine_port_removed) = None
  /\ dict_get (0, 2) (packet_queues engine_port_removed) = Some []
  /\ (run [Selected [Source (Some (0, 1, [x01]%byte, 7%Z));
                     Source (Some (0, 2, [x02]%byte, 8%Z))];
           Selected [Source (Some (0, 2, [x03]%byte, 9%Z))]]
          engine_port_removed).1 = Exc KeyError
  /\ dict_get (0, 2)
       (packet_queues
          (run [Selected [Source (Some (0, 1, [x01]%byte, 7%Z));
                          Source (Some (0, 2, [x02]%byte, 8%Z))];
                Selected [Source (Some (0, 2, [x03]%byte, 9%Z))]]
               engine_port_removed).2) = Some [].
Proof. repeat split; vm_compute; reflexivity. Qed.

Lemma drop_push_app {A} (n : nat) (q0 fs : list A) (x : A) :
  1 <= n -> length q0 <= n ->
  drop (length (drop (length (q0 ++ [x]) - n) (q0 ++ [x]) ++ fs) - n)
       (drop (length (q0 ++ [x]) - n) (q0 ++ [x]) ++ fs)
  = drop (length (q0 ++ x :: fs) - n) (q0 ++ x :: fs).
Proof.
  intros Hn Hle. rewrite (length_app q0 [x]). simpl.
  destruct (decide (length q0 < n)) as [Hlt|Hge].
  - replace (length q0 + 1 - n) with 0 by lia. rewrite drop_0.
    rewrite <- app_assoc. reflexivity.
  - replace (length q0 + 1 - n) with 1 by lia.
    destruct q0 as [|y q0]; simpl in *; [lia | ].
    rewrite drop_0, <- app_assoc. simpl.
    replace (S (length (q0 ++ x :: fs)) - n)
      with (S (length (q0 ++ x :: fs) - n)).
    + rewrite skipn_cons. reflexivity.
    + rewrite length_app. simpl. lia.
Qed.

Lemma run_for_arrivals (d p : nat) (frames : list (bytes * Z)) :
  forall (dp : DataPlane) (q0 : list (bytes * Z)),
    1 <= qlen dp ->
    dict_get (d, p) (packet_queues dp) = Some q0 ->
    length q0 <= qlen dp ->
    exists dp',
      run_for (arrivals d p frames) dp = (Val tt, dp')
      /\ qlen dp' = qlen dp
      /\ dict_get (d, p) (packet_queues dp')
         = Some (drop (length (q0 ++ frames) - qlen dp) (q0 ++ frames))
      /\ counter (rx_counters dp') (d, p)
         = counter (rx_counters dp) (d, p) + length frames.
Proof.
  induction frames as [|[pkt ts] frames IH]; intros dp q0 Hn Hq0 Hlen.
  - exists dp. simpl. unfold_py. rewrite app_nil_r.
    replace (length q0 - qlen dp) with 0 by lia.
    repeat split; [assumption | lia].
  - unfold arrivals. cbn [map run_for fst snd]. fold (arrivals d p frames).
    unfold bind. rewrite enqueue_unfold, Hq0.
    rewrite (pushed_drop _ _ _ Hn Hlen).
    set (q1 := drop (length (q0 ++ [(pkt, ts)]) - qlen dp) (q0 ++ [(pkt, ts)])).
    set (dp1 := with_rx_counters _ _).
    assert (Hlen1 : length q1 <= qlen dp).
    { subst q1. rewrite length_drop. lia. }
    destruct (IH dp1 q1) as (dp' & Hrun & Hqlen & Hget & Hrx).
    { exact Hn. }
    { subst dp1. simpl. apply dict_get_set_eq. }
    { exact Hlen1. }
    exists dp'. rewrite Hrun.
    split; [reflexivity | ]. split; [exact Hqlen | ]. split.
    + rewrite Hget. f_equal. subst q1. subst dp1. simpl.
      now apply drop_push_app.
    + rewrite Hrx. subst dp1. simpl. rewrite counter_incr_eq. lia.
Qed.











(** The example with [qlen = 3]: the loop ends normally, three of the
    five frames are left, and the frame for the other port is in its own
    queue. *)
Example run_five_frames_in_rounds :
  (run five_frames_in_rounds engine_two_ports_qlen_three).1 = Val tt
  /\ packet_queues (run five_frames_in_rounds engine_two_ports_qlen_three).2
     = [((0, 1), [([x03]%byte, 3%Z); ([x04]%byte, 4%Z); ([x05]%byte, 5%Z)]);
        ((0, 2), [([xaa]%byte, 2%Z)])].
Proof. split; vm_compute; reflexivity. Qed.

(** ** The invariant of the engine *)

Lemma after_qlen (dp : DataPlane) (ev : event) : qlen (after dp ev) = qlen dp.
Proof.
  destruct ev as [iface d p|d p| |[[[d p] pkt] ts]]; unfold after.
  - rewrite port_add_unfold. destruct (dppclass dp iface d p); reflexivity.
  - rewrite port_remove_unfold.
    destruct (dict_mem (d, p) (ports dp)); [ | reflexivity].
    destruct (dict_mem (d, p) (packet_queues dp)); reflexivity.
  - apply flush_effect.
  - rewrite enqueue_unfold.
    destruct (dict_get (d, p) (packet_queues dp)) as [q|]; [ | reflexivity].
    destruct (pushed (qlen dp) q (pkt, ts)); reflexivity.
Qed.

Lemma after_all_qlen (evs : list event) (dp : DataPlane) :
  qlen (after_all dp evs) = qlen dp.
Proof.
  unfold after_all. revert dp.
  induction evs as [|ev evs IH]; intros dp; simpl; [reflexivity | ].
  now rewrite IH, after_qlen.
Qed.

Lemma engine_inv_init (cls : string -> nat -> nat -> option Backend)
    (config_qlen : option nat) :
  engine_inv (DataPlane_init cls config_qlen).
Proof.
  unfold engine_inv. simpl. split; [reflexivity | ].
  split; [apply NoDup_nil_2 | ]. intros k q Hget. discriminate.
Qed.

Lemma engine_inv_port_add (iface : string) (d p : nat) (dp : DataPlane) :
  engine_inv dp -> engine_inv (port_add iface d p dp).2.
Proof.
  intros Hinv. pose proof Hinv as (Hkeys & Hnd & Hq). rewrite port_add_unfold.
  destruct (dppclass dp iface d p) as [b|]; [ | exact Hinv].
  unfold engine_inv. simpl.
  split; [now apply dict_keys_set | ].
  split; [now apply dict_set_NoDup | ].
  intros k q.
  destruct (decide ((d, p) = k)) as [<-|Hne];
    [rewrite dict_get_set_eq | rewrite dict_get_set_ne by assumption].
  - intros Hs. assert (q = []) as -> by congruence. simpl. lia.
  - apply Hq.
Qed.

Lemma engine_inv_port_remove (d p : nat) (dp : DataPlane) :
  engine_inv dp -> engine_inv (port_remove d p dp).2.
Proof.
  intros Hinv. pose proof Hinv as (Hkeys & Hnd & Hq). rewrite port_remove_unfold.
  rewrite <- (dict_mem_keys (d, p) (ports dp) (packet_queues dp) Hkeys).
  destruct (dict_mem (d, p) (ports dp)); [ | exact Hinv].
  unfold engine_inv. simpl.
  split; [now apply dict_keys_del | ].
  split; [now apply dict_del_NoDup | ].
  intros k q. destruct (decide ((d, p) = k)) as [<-|Hne].
  - rewrite dict_get_del_eq. discriminate.
  - rewrite dict_get_del_ne by assumption. apply Hq.
Qed.

Lemma engine_inv_flush (dp : DataPlane) :
  engine_inv dp -> engine_inv (flush dp).2.
Proof.
  intros Hinv. pose proof Hinv as (Hkeys & Hnd & Hq).
  destruct (flush_effect dp)
    as (_ & Hempty & Hkeys' & Hports & Hrx & _ & Hqlen & _).
  unfold engine_inv. rewrite Hports, Hkeys', Hrx, Hqlen.
  split; [assumption | ]. split; [assumption | ].
  intros k q Hget.
  assert (Hin : k ∈ dict_keys (packet_queues dp)).
  { rewrite <- Hkeys'. apply dict_get_is_Some. now exists q. }
  rewrite (Hempty k Hin) in Hget. injection Hget as <-. simpl. lia.
Qed.

Lemma engine_inv_enqueue (t : frame) (dp : DataPlane) :
  engine_inv dp -> engine_inv (enqueue t dp).2.
Proof.
  intros Hinv. pose proof Hinv as (Hkeys & Hnd & Hq). destruct t as [[[d p] pkt] ts].
  rewrite enqueue_unfold.
  destruct (dict_get (d, p) (packet_queues dp)) as [q0|] eqn:Hget;
    [ | exact Hinv].
  destruct (pushed (qlen dp) q0 (pkt, ts)) as [q1|] eqn:Hpush;
    [ | exact Hinv].
  destruct (Hq _ _ Hget) as [Hlen Hrx].
  unfold engine_inv. simpl.
  assert (Hin : (d, p) ∈ dict_keys (packet_queues dp)).
  { apply dict_get_is_Some. now exists q0. }
  split; [now rewrite dict_keys_set_present | ].
  split; [now apply dict_set_NoDup | ].
  intros k q.
  destruct (decide ((d, p) = k)) as [<-|Hne];
    [rewrite dict_get_set_eq | rewrite dict_get_set_ne by assumption].
  - intros Hs. assert (q = q1) as -> by congruence.
    rewrite counter_incr_eq. split.
    + eapply pushed_length; eassumption.
    + apply pushed_length_S in Hpush. lia.
  - intros Hk. rewrite counter_incr_ne by assumption. now apply Hq.
Qed.

Lemma engine_inv_after (dp : DataPlane) (ev : event) :
  engine_inv dp -> engine_inv (after dp ev).
Proof.
  destruct ev; unfold after.
  - apply engine_inv_port_add.
  - apply engine_inv_port_remove.
  - apply engine_inv_flush.
  - apply engine_inv_enqueue.
Qed.

Lemma engine_inv_after_all (evs : list event) (dp : DataPlane) :
  engine_inv dp -> engine_inv (after_all dp evs).
Proof.
  unfold after_all. revert dp.
  induction evs as [|ev evs IH]; intros dp Hinv; simpl; [assumption | ].
  apply IH, engine_inv_after, Hinv.
Qed.

(** C8.  After any finite sequence of [port_add], [port_remove], [flush]
    and frame arrivals on a fresh engine, [qlen] is the configured one,
    the registry and the queues have the same keys, every queue holds at
    most [qlen] frames, and the receive counter of a key is at least the
    length of its queue. *)
Theorem engine_invariant (cls : string -> nat -> nat -> option Backend)
    (config_qlen : option nat) (evs : list event) :
  let dp := after_all (DataPlane_init cls config_qlen) evs in
  qlen dp = default MAX_QUEUE_LEN config_qlen
  /\ (forall k, k ∈ dict_keys (ports dp) <-> k ∈ dict_keys (packet_queues dp))
  /\ (forall k q,
        dict_get k (packet_queues dp) = Some q ->
        length q <= qlen dp /\ length q <= counter (rx_counters dp) k).
Proof.
  intros dp.
  destruct (engine_inv_after_all evs _ (engine_inv_init cls config_qlen))
    as (Hkeys & _ & Hq).
  split; [apply after_all_qlen | ].
  split; [ | exact Hq].
  intros k. subst dp. now rewrite Hkeys.
Qed.

(** ** [DataPlanePacketSourceNN.recv] *)

(** C7, as stated, fails: a message of another type than [INFO_REP] and
    [PACKET_OUT] for a registered port, here [PORT_ADD], does not return
    the no-data value; the assertion on the message type fails. *)
Lemma recv_other_type_asserts :
  1%Z ∈ NN.ports nn_source_port_one
  /\ unpack_iii msg_port_add_port_one = Val (NN.MSG_TYPE_PORT_ADD, 1%Z, 0%Z)
  /\ (NN.recv msg_port_add_port_one 0%Z nn_source_port_one).1
     = Exc AssertionError.
Proof.
  split; [vm_compute; reflexivity | ].
  split; vm_compute; reflexivity.
Qed.

(** C7, amended.  For a message whose header reads [(msg_type, port,
    more)] and whose payload is what follows the header, [recv]
    - returns the no-data value and changes nothing when the port is not
      registered;
    and for a registered port
    - on [INFO_REP] of kind hardware address, stores the payload after the
      status word (or [None] on a status other than success) in the MAC
      cache, notifies the condition once and returns the no-data value;
    - on a successful [INFO_REP] of kind counters with two further words,
      stores them in the counter cache, notifies the condition once and
      returns the no-data value;
    - on [INFO_REP] of any other kind changes nothing and returns the
      no-data value;
    - on [PACKET_OUT] with a payload of [more] bytes returns
      [(device, port, payload, now)] and changes nothing;
    - on every other message type fails the assertion on the type. *)
Theorem recv_spec (s : NN.source) (msg : bytes) (now msg_type port more : Z) :
  unpack_iii msg = Val (msg_type, port, more) ->
  (port ∉ NN.ports s -> NN.recv msg now s = (Val None, s))
  /\ (forall status,
        port ∈ NN.ports s ->
        msg_type = NN.MSG_TYPE_INFO_REP ->
        more = NN.MSG_INFO_TYPE_HWADDR ->
        unpack_i (drop 12 msg) = Val status ->
        (NN.recv msg now s).1 = Val None
        /\ NN.mac_addresses (NN.recv msg now s).2 !! port
           = Some (if decide (status = NN.MSG_INFO_STATUS_SUCCESS)
                   then Some (drop 4 (drop 12 msg)) else None)
        /\ NN.cvar_notified (NN.recv msg now s).2 = S (NN.cvar_notified s)
        /\ NN.nn_counters (NN.recv msg now s).2 = NN.nn_counters s
        /\ NN.ports (NN.recv msg now s).2 = NN.ports s)
  /\ (forall c,
        port ∈ NN.ports s ->
        msg_type = NN.MSG_TYPE_INFO_REP ->
        more = NN.MSG_INFO_TYPE_CTRS ->
        unpack_i (drop 12 msg) = Val NN.MSG_INFO_STATUS_SUCCESS ->
        unpack_ii (drop 4 (drop 12 msg)) = Val c ->
        (NN.recv msg now s).1 = Val None
        /\ NN.nn_counters (NN.recv msg now s).2 !! port = Some c
        /\ NN.cvar_notified (NN.recv msg now s).2 = S (NN.cvar_notified s)
        /\ NN.mac_addresses (NN.recv msg now s).2 = NN.mac_addresses s
        /\ NN.ports (NN.recv msg now s).2 = NN.ports s)
  /\ (forall status,
        port ∈ NN.ports s ->
        msg_type = NN.MSG_TYPE_INFO_REP ->
        more <> NN.MSG_INFO_TYPE_HWADDR ->
        more <> NN.MSG_INFO_TYPE_CTRS ->
        unpack_i (drop 12 msg) = Val status ->
        NN.recv msg now s = (Val None, s))
  /\ (port ∈ NN.ports s ->
      msg_type = NN.MSG_TYPE_PACKET_OUT ->
      Z.of_nat (length (drop 12 msg)) = more ->
      NN.recv msg now s
      = (Val (Some (NN.device_number s, port, drop 12 msg, now)), s))
  /\ (port ∈ NN.ports s ->
      msg_type <> NN.MSG_TYPE_INFO_REP ->
      msg_type <> NN.MSG_TYPE_PACKET_OUT ->
      NN.recv msg now s = (Exc AssertionError, s)).
Proof.
  intros Hhdr. unfold NN.recv, NN.handle_info_rep, calcsize_iii, calcsize_i.
  unfold_py. rewrite Hhdr.
  split; [ | split; [ | split; [ | split; [ | split]]]].
  - intros Hout. now rewrite decide_True.
  - intros status Hin -> -> Hst.
    rewrite decide_False by tauto. rewrite decide_True by reflexivity.
    rewrite Hst. rewrite decide_True by reflexivity. simpl.
    rewrite lookup_insert_eq.
    repeat split.
    destruct (decide (status <> NN.MSG_INFO_STATUS_SUCCESS)) as [Hne|He];
      [now rewrite decide_False | rewrite decide_True; [reflexivity | ]].
    now destruct (decide (status = NN.MSG_INFO_STATUS_SUCCESS)).
  - intros c Hin -> -> Hst Hc.
    rewrite decide_False by tauto. rewrite decide_True by reflexivity.
    rewrite Hst. rewrite decide_False by discriminate.
    rewrite decide_True by reflexivity.
    rewrite decide_False by (intros Hs; now apply Hs).
    rewrite Hc. simpl. rewrite lookup_insert_eq. repeat split.
  - intros status Hin -> Hk0 Hk1 Hst.
    rewrite decide_False by tauto. rewrite decide_True by reflexivity.
    rewrite Hst. rewrite !decide_False by assumption. reflexivity.
  - intros Hin -> Hlen.
    rewrite decide_False by tauto. rewrite decide_False by discriminate.
    rewrite decide_False by (intros Hs; now apply Hs).
    rewrite decide_False by (intros Hs; now apply Hs). reflexivity.
  - intros Hin Hne6 Hne4.
    rewrite decide_False by tauto. rewrite decide_False by assumption.
    rewrite decide_True by assumption. reflexivity.
Qed.

Lemma recv_spec_witness :
  NN.recv msg_packet_out_port_one 5%Z nn_source_port_one
  = (Val (Some (0, 1%Z, [xaa; xbb]%byte, 5%Z)), nn_source_port_one).
Proof.
  destruct (recv_spec nn_source_port_one msg_packet_out_port_one 5%Z
              NN.MSG_TYPE_PACKET_OUT 1%Z 2%Z eq_refl)
    as (_ & _ & _ & _ & Hout & _).
  apply Hout.
  - vm_compute. reflexivity.
  - reflexivity.
  - reflexivity.
Defined.

(** ** [oldest_port_number] *)

(** What the loop of [oldest_port_number] has found after any number of
    items. *)
Lemma oldest_fold (device : nat) (items : list (port_id * list (bytes * Z))) :
  let r := fold_left (oldest_round device) items (None, None) in
  (r.1 = None <-> r.2 = None)
  /\ (r.2 = None ->
      forall k q, (k, q) ∈ items -> k.1 = device -> q = [])
  /\ (forall p, r.1 = Some p ->
        exists pkt t rest,
          ((device, p), (pkt, t) :: rest) ∈ items /\ r.2 = Some t)
  /\ (forall t, r.2 = Some t ->
        forall k pkt' t' rest',
          (k, (pkt', t') :: rest') ∈ items -> k.1 = device -> (t <= t')%Z).
Proof.
  induction items as [|[[d0 p0] q0] items IH] using rev_ind.
  - simpl. split; [tauto | ]. split.
    + intros _ k q Hin. inversion Hin.
    + split; [discriminate | discriminate].
  - rewrite fold_left_app. simpl.
    destruct (fold_left (oldest_round device) items (None, None)) as [rp rt].
    simpl in IH. destruct IH as (Hiff & Hempty & Hport & Hmin).
    unfold oldest_round. simpl.
    destruct (decide (d0 <> device)) as [Hother|Hsame].
    { simpl. split; [exact Hiff | ]. split; [ | split].
      - intros Hnone k q Hin Hk.
        apply elem_of_app in Hin as [Hin|Hin]; [eauto | ].
        apply list_elem_of_singleton in Hin. injection Hin as -> ->.
        simpl in Hk. congruence.
      - intros p Hp. destruct (Hport p Hp) as (pkt & t & rest & Hin & Ht).
        exists pkt, t, rest. split; [ | exact Ht].
        apply elem_of_app. now left.
      - intros t Ht k pkt' t' rest' Hin Hk.
        apply elem_of_app in Hin as [Hin|Hin]; [eauto | ].
        apply list_elem_of_singleton in Hin. injection Hin as -> _.
        simpl in Hk. congruence. }
    assert (d0 = device) as -> by (destruct (decide (d0 = device)); tauto).
    destruct q0 as [|[pkt0 t0] rest0].
    { simpl. split; [exact Hiff | ]. split; [ | split].
      - intros Hnone k q Hin Hk.
        apply elem_of_app in Hin as [Hin|Hin]; [eauto | ].
        apply list_elem_of_singleton in Hin. now injection Hin as -> ->.
      - intros p Hp. destruct (Hport p Hp) as (pkt & t & rest & Hin & Ht).
        exists pkt, t, rest. split; [ | exact Ht].
        apply elem_of_app. now left.
      - intros t Ht k pkt' t' rest' Hin Hk.
        apply elem_of_app in Hin as [Hin|Hin]; [eauto | ].
        apply list_elem_of_singleton in Hin. discriminate. }
    destruct (lt_min_time t0 rt) eqn:Hlt; simpl.
    + split; [split; discriminate | ]. split; [discriminate | ]. split.
      * intros p [= <-]. exists pkt0, t0, rest0.
        split; [ | reflexivity].
        apply elem_of_app. right. apply list_elem_of_singleton. reflexivity.
      * intros t [= <-] k pkt' t' rest' Hin Hk.
        apply elem_of_app in Hin as [Hin|Hin].
        -- unfold lt_min_time in Hlt. destruct rt as [m|].
           ++ apply bool_decide_eq_true in Hlt.
              pose proof (Hmin m eq_refl k pkt' t' rest' Hin Hk). lia.
           ++ pose proof (Hempty eq_refl k _ Hin Hk). discriminate.
        -- apply list_elem_of_singleton in Hin. injection Hin as _ _ -> _. lia.
    + unfold lt_min_time in Hlt. destruct rt as [m|]; [ | discriminate].
      apply bool_decide_eq_false in Hlt.
      split; [exact Hiff | ]. split; [discriminate | ]. split.
      * intros p Hp. destruct (Hport p Hp) as (pkt & t & rest & Hin & Ht).
        exists pkt, t, rest. split; [apply elem_of_app; now left | exact Ht].
      * intros t [= <-] k pkt' t' rest' Hin Hk.
        apply elem_of_app in Hin as [Hin|Hin]; [eauto | ].
        apply list_elem_of_singleton in Hin. injection Hin as _ _ -> _. lia.
Qed.

Lemma oldest_port_number_Some (dp : DataPlane) (device p : nat) :
  NoDup (dict_keys (packet_queues dp)) ->
  oldest_port_number dp device = Some p ->
  exists pkt t rest,
    dict_get (device, p) (packet_queues dp) = Some ((pkt, t) :: rest)
    /\ forall p' pkt' t' rest',
         dict_get (device, p') (packet_queues dp) = Some ((pkt', t') :: rest') ->
         (t <= t')%Z.
Proof.
  intros Hnd Hold. unfold oldest_port_number in Hold.
  destruct (oldest_fold device (packet_queues dp)) as (_ & _ & Hport & Hmin).
  destruct (Hport p Hold) as (pkt & t & rest & Hin & Ht).
  exists pkt, t, rest. split.
  - now apply dict_elem_of_get.
  - intros p' pkt' t' rest' Hget.
    apply (Hmin t Ht (device, p') pkt' t' rest'); [ | reflexivity].
    now apply dict_get_elem_of.
Qed.

Lemma oldest_port_number_None (dp : DataPlane) (device : nat) :
  NoDup (dict_keys (packet_queues dp)) ->
  oldest_port_number dp device = None <-> queues_empty dp device.
Proof.
  intros Hnd. split.
  - intros Hold p q Hget. unfold oldest_port_number in Hold.
    destruct (oldest_fold device (packet_queues dp)) as (Hiff & Hempty & _ & _).
    apply (Hempty (proj1 Hiff Hold) (device, p) q); [ | reflexivity].
    now apply dict_get_elem_of.
  - intros Hempty.
    destruct (oldest_port_number dp device) as [p|] eqn:Hold; [ | reflexivity].
    destruct (oldest_port_number_Some dp device p Hnd Hold)
      as (pkt & t & rest & Hget & _).
    specialize (Hempty p _ Hget). discriminate.
Qed.

(** ** [packets] *)

(** One turn of [packets] without a port argument. *)
Lemma packets_next_any (dp : DataPlane) (device : nat) :
  NoDup (dict_keys (packet_queues dp)) ->
  (queues_empty dp device /\ packets_next device None dp = (Val None, dp))
  \/ (exists p pkt t rest,
        dict_get (device, p) (packet_queues dp) = Some ((pkt, t) :: rest)
        /\ (forall p' pkt' t' rest',
              dict_get (device, p') (packet_queues dp)
              = Some ((pkt', t') :: rest') -> (t <= t')%Z)
        /\ packets_next device None dp
           = (Val (Some (p, pkt, t)),
              with_packet_queues (dict_set (device, p) rest) dp)).
Proof.
  intros Hnd. unfold packets_next. unfold_py.
  destruct (oldest_port_number dp device) as [p|] eqn:Hold.
  - right.
    destruct (oldest_port_number_Some dp device p Hnd Hold)
      as (pkt & t & rest & Hget & Hmin).
    exists p, pkt, t, rest. rewrite Hget. auto.
  - left. split; [now apply oldest_port_number_None | reflexivity].
Qed.

Lemma queued_set (k : port_id) (q q' : list (bytes * Z)) (dp : DataPlane) :
  dict_get k (packet_queues dp) = Some q ->
  queued (with_packet_queues (dict_set k q') dp) + length q
  = queued dp + length q'.
Proof.
  unfold queued. simpl. induction (packet_queues dp) as [|[k0 q0] d IH]; simpl.
  - discriminate.
  - destruct (decide (k = k0)) as [->|Hne]; simpl.
    + intros [= ->]. lia.
    + intros Hget. specialize (IH Hget). lia.
Qed.

Lemma Z_le_transitive : Relations_1.Transitive Z.le.
Proof. intros x y z. apply Z.le_trans. Qed.

Lemma sorted_head_least (t : Z) (ts : list Z) :
  Sorted Z.le (t :: ts) -> Sorted Z.le ts /\ Forall (Z.le t) ts.
Proof.
  intros Hs. split.
  - now apply Sorted_inv in Hs.
  - apply Sorted_StronglySorted in Hs; [ | exact Z_le_transitive].
    now apply StronglySorted_inv in Hs.
Qed.

(** Taking the head with the least timestamp keeps the queues sorted and
    leaves only timestamps that are at least that one. *)
Lemma pop_oldest (dp : DataPlane) (device p : nat) (pkt : bytes) (t : Z)
    (rest : list (bytes * Z)) :
  queues_sorted dp device ->
  dict_get (device, p) (packet_queues dp) = Some ((pkt, t) :: rest) ->
  (forall p' pkt' t' rest',
      dict_get (device, p') (packet_queues dp) = Some ((pkt', t') :: rest') ->
      (t <= t')%Z) ->
  let dp' := with_packet_queues (dict_set (device, p) rest) dp in
  queues_sorted dp' device
  /\ queues_from dp' device t
  /\ forall lb, queues_from dp device lb ->
                (lb <= t)%Z /\ queues_from dp' device lb.
Proof.
  intros Hsorted Hget Hmin dp'.
  pose proof (Hsorted p _ Hget) as Hsp. simpl in Hsp.
  apply sorted_head_least in Hsp as [Hsrest Hfrom].
  assert (Hlook : forall p' q,
             dict_get (device, p') (packet_queues dp') = Some q ->
             (p' = p /\ q = rest)
             \/ (p' <> p /\ dict_get (device, p') (packet_queues dp) = Some q)).
  { intros p' q. subst dp'. simpl.
    destruct (decide (p = p')) as [<-|Hne].
    - rewrite dict_get_set_eq. intros [= <-]. now left.
    - rewrite dict_get_set_ne by congruence. intros Hq. right. split; congruence. }
  split; [ | split].
  - intros p' q Hq. destruct (Hlook p' q Hq) as [[-> ->]|[_ Hq']].
    + exact Hsrest.
    + exact (Hsorted p' q Hq').
  - intros p' q Hq. destruct (Hlook p' q Hq) as [[-> ->]|[_ Hq']].
    + exact Hfrom.
    + destruct q as [|[pkt' t'] rest']; [constructor | ].
      pose proof (Hmin p' pkt' t' rest' Hq') as Hle.
      pose proof (Hsorted p' _ Hq') as Hs'. simpl in Hs'.
      apply sorted_head_least in Hs' as [_ Hfrom'].
      simpl. constructor; [exact Hle | ].
      eapply Forall_impl; [exact Hfrom' | ].
      intros x Hx. exact (Z.le_trans _ _ _ Hle Hx).
  - intros lb Hlb. split.
    + pose proof (Hlb p _ Hget) as Hall. simpl in Hall.
      now apply Forall_cons in Hall as [Hle _].
    + intros p' q Hq. destruct (Hlook p' q Hq) as [[-> ->]|[_ Hq']].
      * pose proof (Hlb p _ Hget) as Hall. simpl in Hall.
        now apply Forall_cons in Hall as [_ Hall].
      * exact (Hlb p' q Hq').
Qed.

Lemma packets_upto_sorted (device : nat) (fuel : nat) :
  forall dp : DataPlane,
    NoDup (dict_keys (packet_queues dp)) ->
    queues_sorted dp device ->
    queued dp < fuel ->
    exists ys dp',
      packets_upto fuel device None dp = (Val ys, dp')
      /\ StronglySorted Z.le ys.*2
      /\ (forall lb, queues_from dp device lb -> Forall (Z.le lb) ys.*2)
      /\ queues_empty dp' device.
Proof.
  induction fuel as [|fuel IH]; intros dp Hnd Hsorted Hfuel; [lia | ].
  simpl. unfold bind.
  destruct (packets_next_any dp device Hnd)
    as [[Hempty ->]|(p & pkt & t & rest & Hget & Hmin & ->)].
  - exists [], dp. unfold ret. simpl.
    split; [reflexivity | ]. split; [constructor | ].
    split; [intros; constructor | exact Hempty].
  - destruct (pop_oldest dp device p pkt t rest Hsorted Hget Hmin)
      as (Hsorted' & Hfrom' & Hlb).
    set (dp1 := with_packet_queues (dict_set (device, p) rest) dp) in *.
    destruct (IH dp1) as (ys & dp' & Hrun & Hys & Hbound & Hempty).
    { subst dp1. simpl. now apply dict_set_NoDup. }
    { exact Hsorted'. }
    { pose proof (queued_set _ _ rest dp Hget) as Hq.
      cbn [length] in Hq. subst dp1. lia. }
    exists ((p, pkt, t) :: ys), dp'. rewrite Hrun. unfold ret. simpl.
    split; [reflexivity | ]. split; [ | split].
    + constructor; [exact Hys | exact (Hbound t Hfrom')].
    + intros lb Hfrom. destruct (Hlb lb Hfrom) as [Hle Hfrom1].
      constructor; [exact Hle | exact (Hbound lb Hfrom1)].
    + exact Hempty.
Qed.


(** The scenario of two ports: the frame stamped 5 on port 2 comes out
    before the frame stamped 10 on port 1, although it arrived later. *)
Example packets_two_ports :
  (packets 0 None engine_two_ports).1
  = Val [(2, [x05]%byte, 5%Z); (1, [x0a]%byte, 10%Z)].
Proof. vm_compute. reflexivity. Qed.

(** ** [poll] *)

Lemma oldest_port_number_registered (dp : DataPlane) (device p : nat) :
  oldest_port_number dp device = Some p ->
  is_Some (dict_get (device, p) (packet_queues dp)).
Proof.
  intros Hold. unfold oldest_port_number in Hold.
  destruct (oldest_fold device (packet_queues dp)) as (_ & _ & Hport & _).
  destruct (Hport p Hold) as (pkt & t & rest & Hin & _).
  apply dict_get_is_Some. unfold dict_keys.
  apply list_elem_of_fmap. eexists. split; [ | exact Hin]. reflexivity.
Qed.

Lemma packets_next_cases (device : nat) (port_number : option nat)
    (dp : DataPlane) :
  packets_next device port_number dp = (Val None, dp)
  \/ ((exists p, port_number = Some p
                 /\ dict_get (device, p) (packet_queues dp) = None)
      /\ packets_next device port_number dp = (Exc KeyError, dp))
  \/ exists p pkt t rest,
       (port_number = None \/ port_number = Some p)
       /\ dict_get (device, p) (packet_queues dp) = Some ((pkt, t) :: rest)
       /\ packets_next device port_number dp
          = (Val (Some (p, pkt, t)),
             with_packet_queues (dict_set (device, p) rest) dp).
Proof.
  unfold packets_next. unfold_py.
  destruct port_number as [p|].
  - destruct (dict_get (device, p) (packet_queues dp)) as [[|[pkt t] rest]|]
      eqn:Hget; [now left | | right; left; eauto].
    right; right. exists p, pkt, t, rest. auto.
  - destruct (oldest_port_number dp device) as [p|] eqn:Hold; [ | now left].
    destruct (oldest_port_number_registered dp device p Hold) as [q Hget].
    rewrite Hget. destruct q as [|[pkt t] rest]; [now left | ].
    right; right. exists p, pkt, t, rest. auto.
Qed.




(** What one call of [grab] does, with enough fuel for the frames that
    are queued. *)
Lemma grab_upto_spec (device : nat) (port_number : option nat)
    (exp_pkt : option expected) (filters : list (bytes -> bool))
    (fuel : nat) :
  forall (dp : DataPlane) (g g' : grab_log) (r : option poll_result)
         (dp' : DataPlane),
    queued dp < fuel ->
    grab_upto fuel device port_number exp_pkt filters g dp
    = (Val (g', r), dp') ->
    exists ys,
      pops device port_number dp ys dp'
      /\ g' = log_all (map (fun y => y.1.2) ys) g
      /\ match r with
         | None =>
             Forall (rejected exp_pkt filters) ys
             /\ packets_next device port_number dp' = (Val None, dp')
         | Some res =>
             exists ys0 p pkt t,
               ys = ys0 ++ [(p, pkt, t)]
               /\ Forall (rejected exp_pkt filters) ys0
               /\ filter_check filters pkt = true
               /\ accepts exp_pkt pkt = true
               /\ res = PollSuccess_new device p pkt exp_pkt t
         end.
Proof.
  induction fuel as [|fuel IH]; intros dp g g' r dp' Hfuel Hrun; [lia | ].
  simpl in Hrun. unfold bind in Hrun.
  destruct (packets_next_cases device port_number dp)
    as [Hstop|[[_ Hexc]|(p & pkt & t & rest & Hport & Hget & Hyield)]].
  - rewrite Hstop in Hrun. unfold ret in Hrun. injection Hrun as <- <- <-.
    exists []. split; [constructor | ]. split; [reflexivity | ].
    split; [constructor | exact Hstop].
  - rewrite Hexc in Hrun. discriminate.
  - rewrite Hyield in Hrun.
    set (dp1 := with_packet_queues (dict_set (device, p) rest) dp) in *.
    assert (Hfuel1 : queued dp1 < fuel).
    { pose proof (queued_set _ _ rest dp Hget) as Hq.
      cbn [length] in Hq. subst dp1. lia. }
    assert (Hrec : forall Hrej : rejected exp_pkt filters (p, pkt, t),
               grab_upto fuel device port_number exp_pkt filters
                         (grab_log_record pkt g) dp1 = (Val (g', r), dp') ->
               exists ys,
                 pops device port_number dp ys dp'
                 /\ g' = log_all (map (fun y => y.1.2) ys) g
                 /\ match r with
                    | None =>
                        Forall (rejected exp_pkt filters) ys
                        /\ packets_next device port_number dp' = (Val None, dp')
                    | Some res =>
                        exists ys0 p pkt t,
                          ys = ys0 ++ [(p, pkt, t)]
                          /\ Forall (rejected exp_pkt filters) ys0
                          /\ filter_check filters pkt = true
                          /\ accepts exp_pkt pkt = true
                          /\ res = PollSuccess_new device p pkt exp_pkt t
                    end).
    { intros Hrej Hrest.
      destruct (IH dp1 _ g' r dp' Hfuel1 Hrest) as (ys & Hpops & Hlog & Hres).
      exists ((p, pkt, t) :: ys).
      split; [now apply (pops_cons device port_number dp p pkt t rest) | ].
      split; [exact Hlog | ].
      destruct r as [res|].
      - destruct Hres as (ys0 & p1 & pkt1 & t1 & -> & Hys0 & Hf & Ha & ->).
        exists ((p, pkt, t) :: ys0), p1, pkt1, t1.
        split; [reflexivity | ]. split; [now constructor | auto].
      - destruct Hres as [Hall Hstop]. split; [now constructor | exact Hstop]. }
    destruct (filter_check filters pkt) eqn:Hfilter; simpl in Hrun.
    + destruct (accepts exp_pkt pkt) eqn:Haccept.
      * unfold ret in Hrun. injection Hrun as <- <- <-.
        exists [(p, pkt, t)]. split.
        { apply (pops_cons device port_number dp p pkt t rest);
            [assumption | assumption | constructor]. }
        split; [reflexivity | ].
        exists [], p, pkt, t. repeat split; auto.
      * apply Hrec; [ | exact Hrun].
        unfold rejected. simpl. now rewrite Hfilter, Haccept.
    + apply Hrec; [ | exact Hrun].
      unfold rejected. simpl. now rewrite Hfilter.
Qed.




(** The same poll, evaluated: both frames were examined and are gone. *)
Example poll_two_ports_timeout :
  (poll 0 None [] (Some (ExpPkt [x07]%byte)) [] engine_two_ports).1
  = Val (PollFailure
           {| device := None; port := None; packet := None; time := None |}
           (Some (ExpPkt [x07]%byte)) [[x05]%byte; [x0a]%byte] 2)
  /\ packet_queues
       (poll 0 None [] (Some (ExpPkt [x07]%byte)) [] engine_two_ports).2
     = [((0, 1), []); ((0, 2), [])].
Proof. split; vm_compute; reflexivity. Qed.

(** A poll on a port that is not registered raises instead of timing out. *)
Example poll_unregistered_port_raises :
  (poll 0 (Some 7) [] None [] engine_two_ports).1 = Exc KeyError.
Proof. vm_compute. reflexivity. Qed.

(** [poll] ends in one of three ways: a success built from a dequeued
    frame, a failure built from [grab_log], or the [KeyError] of a port
    that was asked for by number and has no queue. *)
Lemma grab_upto_outcomes (device : nat) (port_number : option nat)
    (exp_pkt : option expected) (filters : list (bytes -> bool))
    (fuel : nat) :
  forall (dp : DataPlane) (g : grab_log),
    match (grab_upto fuel device port_number exp_pkt filters g dp).1 with
    | Val (_, None) => True
    | Val (_, Some r) =>
        exists p pkt t, r = PollSuccess_new device p pkt exp_pkt t
    | Exc e => e = KeyError /\ exists p, port_number = Some p
    end.
Proof.
  induction fuel as [|fuel IH]; intros dp g; simpl; [exact I | ].
  unfold bind.
  destruct (packets_next_cases device port_number dp)
    as [->|[[(p & Hp & _) ->]|(p & pkt & t & rest & _ & _ & ->)]].
  - exact I.
  - simpl. eauto.
  - destruct (filter_check filters pkt); simpl; [ | apply IH].
    destruct (accepts exp_pkt pkt); [simpl; eauto | apply IH].
Qed.

Lemma timed_wait_outcomes (device : nat) (port_number : option nat)
    (exp_pkt : option expected) (filters : list (bytes -> bool))
    (wakes : list (list event)) :
  forall (dp : DataPlane) (g : grab_log),
    match (timed_wait (grab device port_number exp_pkt filters) wakes g dp).1
    with
    | Val (_, None) => True
    | Val (_, Some r) =>
        exists p pkt t, r = PollSuccess_new device p pkt exp_pkt t
    | Exc e => e = KeyError /\ exists p, port_number = Some p
    end.
Proof.
  induction wakes as [|evs wakes IH]; intros dp g; simpl; unfold bind;
    pose proof (grab_upto_outcomes device port_number exp_pkt filters
                  (S (queued dp)) dp g) as Hgrab;
    unfold grab;
    destruct (grab_upto (S (queued dp)) device port_number exp_pkt filters
                        g dp) as [[[g1 [res|]]|e] dp1];
    simpl in *; try assumption; try exact I.
  unfold modify. apply IH.
Qed.

Lemma poll_outcomes (dp : DataPlane) (device_number : nat)
    (port_number : option nat) (wakes : list (list event))
    (exp_pkt : option expected) (filters : list (bytes -> bool)) :
  match (poll device_number port_number wakes exp_pkt filters dp).1 with
  | Val r =>
      (exists p pkt t, r = PollSuccess_new device_number p pkt exp_pkt t)
      \/ (exists recent count, r = PollFailure_new exp_pkt recent count)
  | Exc e => e = KeyError /\ exists p, port_number = Some p
  end.
Proof.
  unfold poll, bind.
  pose proof (timed_wait_outcomes device_number port_number exp_pkt filters
                wakes dp grab_log_new) as Hwait.
  destruct (timed_wait (grab device_number port_number exp_pkt filters) wakes
                       grab_log_new dp) as [[[g [res|]]|e] dp1];
    simpl in *; eauto.
Qed.

(** * Further properties of the engine *)

(** ** [port_remove] *)

(** X1.  [port_remove] of a key that is not registered returns [False] and
    changes nothing; of a key that is registered it returns [True], leaves
    the key without backend and without queue, and touches no other key
    and no counter (the receive counter of the removed key stays). *)
Theorem port_remove_effect (d p : nat) (dp : DataPlane) :
  (dict_mem (d, p) (ports dp) = false ->
   port_remove d p dp = (Val false, dp))
  /\ (dict_mem (d, p) (ports dp) = true ->
      dict_mem (d, p) (packet_queues dp) = true ->
      (port_remove d p dp).1 = Val true
      /\ dict_get (d, p) (ports (port_remove d p dp).2) = None
      /\ dict_get (d, p) (packet_queues (port_remove d p dp).2) = None
      /\ (forall k, k <> (d, p) ->
            dict_get k (ports (port_remove d p dp).2) = dict_get k (ports dp)
            /\ dict_get k (packet_queues (port_remove d p dp).2)
               = dict_get k (packet_queues dp))
      /\ rx_counters (port_remove d p dp).2 = rx_counters dp
      /\ tx_counters (port_remove d p dp).2 = tx_counters dp).
Proof.
  rewrite port_remove_unfold. split.
  - intros ->. reflexivity.
  - intros -> ->. simpl. rewrite !dict_get_del_eq.
    repeat split; try reflexivity; apply dict_get_del_ne; congruence.
Qed.

(** X2.  On an engine that satisfies its invariant a second [port_remove]
    of the same key returns [False] and changes nothing. *)
Theorem port_remove_twice (d p : nat) (dp : DataPlane) :
  engine_inv dp ->
  port_remove d p (port_remove d p dp).2
  = (Val false, (port_remove d p dp).2).
Proof.
  intros (Hkeys & _ & _).
  rewrite (port_remove_unfold d p dp).
  rewrite <- (dict_mem_keys (d, p) (ports dp) (packet_queues dp) Hkeys).
  destruct (dict_mem (d, p) (ports dp)) eqn:Hmem; simpl.
  - rewrite port_remove_unfold. simpl.
    replace (dict_mem (d, p) (dict_del (d, p) (ports dp))) with false;
      [reflexivity | ].
    symmetry. unfold dict_mem. apply bool_decide_eq_false.
    rewrite dict_get_del_eq. intros [? ?]. discriminate.
  - rewrite port_remove_unfold, Hmem. reflexivity.
Qed.

Lemma port_remove_twice_witness :
  port_remove 0 1 (port_remove 0 1 engine_one_frame).2
  = (Val false, (port_remove 0 1 engine_one_frame).2).
Proof.
  apply port_remove_twice.
  apply (engine_inv_after_all
           [EvPortAdd "eth0" 0 1; EvArrival (0, 1, [x01; x02]%byte, 7%Z)]).
  apply engine_inv_init.
Defined.

(** ** The counters *)

Lemma after_counters (dp : DataPlane) (ev : event) (k : port_id) :
  counter (rx_counters dp) k <= counter (rx_counters (after dp ev)) k
  /\ tx_counters (after dp ev) = tx_counters dp.
Proof.
  destruct ev as [iface d p|d p| |[[[d p] pkt] ts]]; unfold after.
  - rewrite port_add_unfold.
    destruct (dppclass dp iface d p); simpl; split; (reflexivity || lia).
  - rewrite port_remove_unfold.
    destruct (dict_mem (d, p) (ports dp)); [ | split; (reflexivity || lia)].
    destruct (dict_mem (d, p) (packet_queues dp)); simpl;
      split; (reflexivity || lia).
  - destruct (flush_effect dp) as (_ & _ & _ & _ & Hrx & Htx & _).
    rewrite Hrx, Htx. split; (reflexivity || lia).
  - rewrite enqueue_unfold.
    destruct (dict_get (d, p) (packet_queues dp)) as [q|];
      [ | simpl; split; (reflexivity || lia)].
    destruct (pushed (qlen dp) q (pkt, ts));
      [ | simpl; split; (reflexivity || lia)].
    simpl. split; [ | reflexivity].
    destruct (decide ((d, p) = k)) as [<-|Hne].
    + rewrite counter_incr_eq. lia.
    + rewrite counter_incr_ne by assumption. lia.
Qed.

(** X3.  Over any sequence of [port_add], [port_remove], [flush] and
    frame arrivals no receive counter ever decreases, in particular not
    when its port is removed or added again, and no transmit counter
    changes. *)
Theorem counters_over_events (evs : list event) (dp : DataPlane)
    (k : port_id) :
  counter (rx_counters dp) k <= counter (rx_counters (after_all dp evs)) k
  /\ tx_counters (after_all dp evs) = tx_counters dp.
Proof.
  unfold after_all. revert dp.
  induction evs as [|ev evs IH]; intros dp; simpl; [split; (reflexivity || lia) | ].
  destruct (IH (after dp ev)) as [Hrx Htx].
  destruct (after_counters dp ev k) as [Hrx1 Htx1].
  split; [lia | congruence].
Qed.

(** ** A queue that is longer than [qlen] *)

Lemma run_for_full (d p : nat) (frames : list (bytes * Z)) :
  forall (dp : DataPlane) (q : list (bytes * Z)),
    dict_get (d, p) (packet_queues dp) = Some q ->
    qlen dp <= length q ->
    1 <= length q ->
    exists dp',
      run_for (arrivals d p frames) dp = (Val tt, dp')
      /\ qlen dp' = qlen dp
      /\ dict_get (d, p) (packet_queues dp')
         = Some (drop (length frames) (q ++ frames)).
Proof.
  induction frames as [|[pkt ts] frames IH]; intros dp q Hq Hfull Hne.
  - exists dp. simpl. unfold_py. rewrite app_nil_r, drop_0. auto.
  - unfold arrivals. cbn [map run_for fst snd]. fold (arrivals d p frames).
    unfold bind. rewrite enqueue_unfold, Hq.
    destruct q as [|y q]; [simpl in Hne; lia | ].
    unfold pushed. destruct (Nat.leb_spec (qlen dp) (length (y :: q))); [ | lia].
    set (dp1 := with_rx_counters _ _).
    destruct (IH dp1 (q ++ [(pkt, ts)])) as (dp' & Hrun & Hqlen & Hget).
    { subst dp1. simpl. apply dict_get_set_eq. }
    { subst dp1. simpl. rewrite length_app. simpl in *. lia. }
    { rewrite length_app. simpl. lia. }
    exists dp'. rewrite Hrun. split; [reflexivity | ].
    split; [exact Hqlen | ].
    rewrite Hget. simpl. now rewrite <- app_assoc.
Qed.

(** X4.  A queue that already holds [qlen] frames or more (for instance
    after [set_qlen] lowered the capacity) is never trimmed: every arrival
    drops the oldest frame and appends the new one, so that after [n]
    arrivals the queue holds the last entries of the old queue followed by
    the new frames and has the length it had. *)
Theorem run_for_keeps_longer_queue (d p : nat) (frames : list (bytes * Z))
    (dp : DataPlane) (q : list (bytes * Z)) :
  dict_get (d, p) (packet_queues dp) = Some q ->
  qlen dp <= length q ->
  1 <= length q ->
  (run_for (arrivals d p frames) dp).1 = Val tt
  /\ dict_get (d, p) (packet_queues (run_for (arrivals d p frames) dp).2)
     = Some (drop (length frames) (q ++ frames))
  /\ length (drop (length frames) (q ++ frames)) = length q.
Proof.
  intros Hq Hfull Hne.
  destruct (run_for_full d p frames dp q Hq Hfull Hne) as (dp' & -> & _ & Hget).
  simpl. split; [reflexivity | ]. split; [exact Hget | ].
  rewrite length_drop, length_app. lia.
Qed.

Lemma run_for_keeps_longer_queue_witness :
  (run_for (arrivals 0 1 [([x04]%byte, 4%Z)]) engine_tapped).1 = Val tt
  /\ dict_get (0, 1)
       (packet_queues (run_for (arrivals 0 1 [([x04]%byte, 4%Z)])
                               engine_tapped).2)
     = Some [([x02]%byte, 2%Z); ([x03]%byte, 3%Z); ([x04]%byte, 4%Z)]
  /\ length [([x02]%byte, 2%Z); ([x03]%byte, 3%Z); ([x04]%byte, 4%Z)] = 3.
Proof.
  apply (run_for_keeps_longer_queue 0 1 [([x04]%byte, 4%Z)] engine_tapped
           [([x01]%byte, 1%Z); ([x02]%byte, 2%Z); ([x03]%byte, 3%Z)]).
  - vm_compute. reflexivity.
  - vm_compute. lia.
  - vm_compute. lia.
Defined.

(** ** The tap *)

Lemma enqueue_tap (t : frame) (dp : DataPlane) :
  pcap_writer (enqueue t dp).2
  = (fun w => w ++ [tap_record t]) <$> pcap_writer dp.
Proof.
  destruct t as [[[d p] pkt] ts]. rewrite enqueue_unfold.
  destruct (dict_get (d, p) (packet_queues dp)) as [q|]; [ | reflexivity].
  destruct (pushed (qlen dp) q (pkt, ts)); reflexivity.
Qed.

Lemma run_for_tap (sel_in : list ready) :
  forall dp : DataPlane,
    (run_for sel_in dp).1 = Val tt ->
    pcap_writer (run_for sel_in dp).2
    = (fun w => w ++ map tap_record (received sel_in)) <$> pcap_writer dp.
Proof.
  induction sel_in as [|sel sel_in IH]; intros dp Hok.
  - simpl. destruct (pcap_writer dp); simpl; [now rewrite app_nil_r | reflexivity].
  - cbn [run_for] in *. unfold bind in *.
    destruct sel as [|[t|]].
    + unfold ret in *. simpl. now apply IH.
    + destruct (enqueue t dp) as [[[]|e] dp1] eqn:Henq; [ | discriminate].
      pose proof (enqueue_tap t dp) as Htap. rewrite Henq in Htap. simpl in Htap.
      rewrite (IH dp1 Hok), Htap. simpl.
      destruct (pcap_writer dp); simpl; [ | reflexivity].
      now rewrite <- app_assoc.
    + unfold ret in *. simpl. now apply IH.
Qed.

(** X5.  While a tap is open, a pass of the capture loop that ends
    normally has written every frame it received to the tap, in order of
    arrival, after what the tap held: also the frames that overflow then
    evicted from their queue. *)
Theorem run_for_taps_every_frame (sel_in : list ready) (dp : DataPlane)
    (w : list (bytes * Z * nat * nat)) :
  pcap_writer dp = Some w ->
  (run_for sel_in dp).1 = Val tt ->
  pcap_writer (run_for sel_in dp).2
  = Some (w ++ map tap_record (received sel_in)).
Proof.
  intros Hw Hok. rewrite (run_for_tap sel_in dp Hok), Hw. reflexivity.
Qed.

Lemma run_for_taps_every_frame_witness :
  pcap_writer
    (run_for (Waker :: arrivals 0 1 five_frames)
       (start_pcap "capture.pcap" engine_qlen_three).2).2
  = Some ([] ++ map tap_record
                  (received (Waker :: arrivals 0 1 five_frames))).
Proof.
  apply run_for_taps_every_frame.
  - vm_compute. reflexivity.
  - vm_compute. reflexivity.
Defined.

(** X6.  A frame received for a key that has no queue is written to the
    open tap before the lookup raises [KeyError]; it is neither queued
    nor counted. *)
Theorem enqueue_unregistered_is_tapped (d p : nat) (pkt : bytes) (ts : Z)
    (dp : DataPlane) (w : list (bytes * Z * nat * nat)) :
  dict_get (d, p) (packet_queues dp) = None ->
  pcap_writer dp = Some w ->
  (enqueue (d, p, pkt, ts) dp).1 = Exc KeyError
  /\ pcap_writer (enqueue (d, p, pkt, ts) dp).2 = Some (w ++ [(pkt, ts, d, p)])
  /\ packet_queues (enqueue (d, p, pkt, ts) dp).2 = packet_queues dp
  /\ rx_counters (enqueue (d, p, pkt, ts) dp).2 = rx_counters dp.
Proof.
  intros Hnone Hw. rewrite enqueue_unfold, Hnone. simpl.
  rewrite Hw. repeat split.
Qed.

Lemma enqueue_unregistered_is_tapped_witness :
  (enqueue (0, 9, [x01]%byte, 4%Z) engine_tapped).1 = Exc KeyError
  /\ pcap_writer (enqueue (0, 9, [x01]%byte, 4%Z) engine_tapped).2
     = Some ([([x01]%byte, 1%Z, 0, 1); ([x02]%byte, 2%Z, 0, 1);
              ([x03]%byte, 3%Z, 0, 1)] ++ [([x01]%byte, 4%Z, 0, 9)])
  /\ packet_queues (enqueue (0, 9, [x01]%byte, 4%Z) engine_tapped).2
     = packet_queues engine_tapped
  /\ rx_counters (enqueue (0, 9, [x01]%byte, 4%Z) engine_tapped).2
     = rx_counters engine_tapped.
Proof.
  apply enqueue_unregistered_is_tapped.
  - vm_compute. reflexivity.
  - vm_compute. reflexivity.
Defined.

Lemma enqueue_without_tap (t : frame) (dp : DataPlane) :
  enqueue t (without_tap dp)
  = ((enqueue t dp).1, without_tap (enqueue t dp).2).
Proof.
  destruct t as [[[d p] pkt] ts]. rewrite !enqueue_unfold. simpl.
  destruct (dict_get (d, p) (packet_queues dp)) as [q|]; [ | reflexivity].
  destruct (pushed (qlen dp) q (pkt, ts)); reflexivity.
Qed.

(** X7.  The tap is only written: a pass of the capture loop gives the
    same result, the same queues and the same counters whether a tap is
    open or not (the engine run without a tap is the engine run with one,
    the tap forgotten). *)
Theorem run_for_ignores_tap (sel_in : list ready) (dp : DataPlane) :
  run_for sel_in (without_tap dp)
  = ((run_for sel_in dp).1, without_tap (run_for sel_in dp).2).
Proof.
  revert dp. induction sel_in as [|sel sel_in IH]; intros dp; [reflexivity | ].
  cbn [run_for]. unfold bind.
  destruct sel as [|[t|]].
  - unfold ret. apply IH.
  - rewrite enqueue_without_tap.
    destruct (enqueue t dp) as [[[]|e] dp1]; simpl; [apply IH | reflexivity].
  - unfold ret. apply IH.
Qed.

(** ** [send] *)

(** X8.  [send] to a key that is not registered returns 0 and changes
    nothing, not even the tap; to a registered key it returns what the
    backend reports, adds one to the transmit counter of that key and of
    no other, whatever the byte count was, appends the frame to the open
    tap, and touches no queue and no receive counter. *)
Theorem send_effect (d p : nat) (packet : bytes) (sent : nat) (now : Z)
    (dp : DataPlane) :
  (dict_mem (d, p) (ports dp) = false ->
   send d p packet sent now dp = (Val 0, dp))
  /\ (dict_mem (d, p) (ports dp) = true ->
      (send d p packet sent now dp).1 = Val sent
      /\ counter (tx_counters (send d p packet sent now dp).2) (d, p)
         = counter (tx_counters dp) (d, p) + 1
      /\ (forall k, k <> (d, p) ->
            counter (tx_counters (send d p packet sent now dp).2) k
            = counter (tx_counters dp) k)
      /\ pcap_writer (send d p packet sent now dp).2
         = (fun w => w ++ [(packet, now, d, p)]) <$> pcap_writer dp
      /\ packet_queues (send d p packet sent now dp).2 = packet_queues dp
      /\ rx_counters (send d p packet sent now dp).2 = rx_counters dp
      /\ ports (send d p packet sent now dp).2 = ports dp).
Proof.
  unfold send, pcap_write. unfold_py. split.
  - intros ->. reflexivity.
  - intros ->. simpl. rewrite counter_incr_eq.
    repeat split. intros k Hne. now apply counter_incr_ne.
Qed.

(** ** Timestamps in the queues *)

Lemma StronglySorted_snoc (l : list Z) (x : Z) :
  StronglySorted Z.le l -> Forall (fun y => (y <= x)%Z) l ->
  StronglySorted Z.le (l ++ [x]).
Proof.
  induction 1 as [|y l Hl IH Hy]; intros Hall; simpl.
  - repeat constructor.
  - apply Forall_cons in Hall as [Hyx Hall].
    constructor; [now apply IH | ].
    apply Forall_app. split; [exact Hy | now repeat constructor].
Qed.

Lemma pushed_stamped (n : nat) (q q' : list (bytes * Z)) (pkt : bytes)
    (ts : Z) (bound : Z -> Prop) :
  pushed n q (pkt, ts) = Some q' ->
  StronglySorted Z.le q.*2 ->
  Forall (fun y => (y <= ts)%Z) q.*2 ->
  Forall bound q.*2 ->
  bound ts ->
  StronglySorted Z.le q'.*2 /\ Forall bound q'.*2.
Proof.
  intros Hpush Hs Hle Hb Hts.
  assert (Hgoal : forall r : list (bytes * Z),
             StronglySorted Z.le r.*2 ->
             Forall (fun y => (y <= ts)%Z) r.*2 ->
             Forall bound r.*2 ->
             StronglySorted Z.le (r ++ [(pkt, ts)]).*2
             /\ Forall bound (r ++ [(pkt, ts)]).*2).
  { intros r Hrs Hrle Hrb. rewrite fmap_app. simpl. split.
    - now apply StronglySorted_snoc.
    - apply Forall_app. split; [exact Hrb | now repeat constructor]. }
  unfold pushed in Hpush. destruct (n <=? length q).
  - destruct q as [|y q]; [discriminate | ]. injection Hpush as <-.
    simpl in *. apply StronglySorted_inv in Hs as [Hs _].
    apply Forall_cons in Hle as [_ Hle]. apply Forall_cons in Hb as [_ Hb].
    now apply Hgoal.
  - injection Hpush as <-. now apply Hgoal.
Qed.

Lemma after_all_stamped (evs : list event) :
  forall dp : DataPlane,
    StronglySorted Z.le (arrival_times evs) ->
    stamped_upto dp (fun t => Forall (Z.le t) (arrival_times evs)) ->
    stamped_upto (after_all dp evs) (fun _ => True).
Proof.
  unfold after_all.
  induction evs as [|ev evs IH]; intros dp Htimes Hdp.
  - simpl. intros k q Hq. destruct (Hdp k q Hq) as [Hs _].
    split; [exact Hs | ]. apply Forall_forall. auto.
  - simpl. destruct ev as [iface d p|d p| |[[[d p] pkt] ts]].
    + apply IH; [exact Htimes | ]. unfold after. rewrite port_add_unfold.
      destruct (dppclass dp iface d p); [ | exact Hdp].
      intros k q. simpl.
      destruct (decide ((d, p) = k)) as [<-|Hne];
        [rewrite dict_get_set_eq | rewrite dict_get_set_ne by assumption].
      * intros Hq. assert (q = []) as -> by congruence.
        split; constructor.
      * apply Hdp.
    + apply IH; [exact Htimes | ]. unfold after. rewrite port_remove_unfold.
      destruct (dict_mem (d, p) (ports dp)); [ | exact Hdp].
      destruct (dict_mem (d, p) (packet_queues dp)); [ | exact Hdp].
      intros k q. simpl.
      destruct (decide ((d, p) = k)) as [<-|Hne];
        [rewrite dict_get_del_eq | rewrite dict_get_del_ne by assumption].
      * discriminate.
      * apply Hdp.
    + apply IH; [exact Htimes | ]. unfold after.
      destruct (flush_effect dp) as (_ & Hempty & Hkeys & _).
      intros k q Hq.
      assert (Hin : k ∈ dict_keys (packet_queues dp)).
      { rewrite <- Hkeys. apply dict_get_is_Some. now exists q. }
      rewrite (Hempty k Hin) in Hq. assert (q = []) as -> by congruence.
      split; constructor.
    + simpl in Htimes. apply StronglySorted_inv in Htimes as [Htimes Hts].
      apply IH; [exact Htimes | ]. unfold after. rewrite enqueue_unfold.
      assert (Hweak : stamped_upto dp
                        (fun t => Forall (Z.le t) (arrival_times evs))).
      { intros k q Hq. destruct (Hdp k q Hq) as [Hs Hb].
        split; [exact Hs | ].
        eapply Forall_impl; [exact Hb | ].
        intros t Ht. simpl in Ht. now apply Forall_cons in Ht as [_ Ht]. }
      destruct (dict_get (d, p) (packet_queues dp)) as [q0|] eqn:Hq0;
        [ | exact Hweak].
      destruct (pushed (qlen dp) q0 (pkt, ts)) as [q1|] eqn:Hpush;
        [ | exact Hweak].
      intros k q. simpl.
      destruct (decide ((d, p) = k)) as [<-|Hne];
        [rewrite dict_get_set_eq | rewrite dict_get_set_ne by assumption].
      * intros Hq. assert (q = q1) as -> by congruence.
        destruct (Hdp _ _ Hq0) as [Hs Hb].
        apply (pushed_stamped (qlen dp) q0 q1 pkt ts); auto.
        -- eapply Forall_impl; [exact Hb | ].
           intros t Ht. simpl in Ht. now apply Forall_cons in Ht as [Ht _].
        -- destruct (Hweak _ _ Hq0) as [_ Hb']. exact Hb'.
      * apply Hweak.
Qed.

(** X9.  When the frames of a sequence of events arrive with
    nondecreasing timestamps, every queue of the engine that started empty
    has nondecreasing timestamps afterwards, whatever [port_add],
    [port_remove] and [flush] did in between and whatever overflow
    dropped. *)
Theorem queues_stay_sorted (cls : string -> nat -> nat -> option Backend)
    (config_qlen : option nat) (evs : list event) (device : nat) :
  Sorted Z.le (arrival_times evs) ->
  queues_sorted (after_all (DataPlane_init cls config_qlen) evs) device.
Proof.
  intros Htimes p q Hq.
  apply Sorted_StronglySorted in Htimes; [ | exact Z_le_transitive].
  destruct (after_all_stamped evs (DataPlane_init cls config_qlen) Htimes)
    with (k := (device, p)) (q := q) as [Hs _];
    [ | exact Hq | now apply StronglySorted_Sorted].
  intros k q0 Hq0. discriminate.
Qed.

Lemma queues_stay_sorted_witness :
  queues_sorted
    (after_all (DataPlane_init DataPlanePortLinux (Some 2))
       [EvPortAdd "eth0" 0 1; EvArrival (0, 1, [x01]%byte, 1%Z);
        EvArrival (0, 1, [x02]%byte, 2%Z); EvPortAdd "eth1" 0 2;
        EvArrival (0, 2, [x03]%byte, 2%Z); EvArrival (0, 1, [x04]%byte, 5%Z)])
    0.
Proof.
  apply queues_stay_sorted. vm_compute.
  repeat (constructor; try (intros Hc; discriminate Hc)).
Defined.

(** ** [packets], frame by frame *)

Lemma dict_set_set {K V} `{EqDecision K} (k : K) (v v' : V)
    (d : list (K * V)) :
  dict_set k v (dict_set k v' d) = dict_set k v d.
Proof.
  induction d as [|[k0 v0] d IH]; simpl.
  - now rewrite decide_True.
  - destruct (decide (k = k0)) as [->|Hne]; simpl.
    + now rewrite decide_True.
    + rewrite decide_False by assumption. now rewrite IH.
Qed.

Lemma dict_set_same {K V} `{EqDecision K} (k : K) (v : V) (d : list (K * V)) :
  dict_get k d = Some v -> dict_set k v d = d.
Proof.
  induction d as [|[k0 v0] d IH]; simpl; [discriminate | ].
  destruct (decide (k = k0)) as [->|Hne].
  - now intros [= ->].
  - intros Hget. now rewrite IH.
Qed.

Lemma with_packet_queues_same (dp : DataPlane)
    (f : list (port_id * list (bytes * Z)) -> list (port_id * list (bytes * Z))) :
  f (packet_queues dp) = packet_queues dp -> with_packet_queues f dp = dp.
Proof. destruct dp. unfold with_packet_queues. simpl. now intros ->. Qed.

Lemma with_packet_queues_set_set (dp : DataPlane) (k : port_id)
    (q q' : list (bytes * Z)) :
  with_packet_queues (dict_set k q) (with_packet_queues (dict_set k q') dp)
  = with_packet_queues (dict_set k q) dp.
Proof. unfold with_packet_queues. simpl. now rewrite dict_set_set. Qed.

Lemma queued_ge (k : port_id) (q : list (bytes * Z)) (dp : DataPlane) :
  dict_get k (packet_queues dp) = Some q -> length q <= queued dp.
Proof.
  intros Hget. pose proof (queued_set k q [] dp Hget) as Hq. simpl in Hq. lia.
Qed.

Lemma packets_upto_one_port (device p : nat) (q : list (bytes * Z)) :
  forall (fuel : nat) (dp : DataPlane),
    dict_get (device, p) (packet_queues dp) = Some q ->
    length q < fuel ->
    packets_upto fuel device (Some p) dp
    = (Val (map (fun x => (p, x.1, x.2)) q),
       with_packet_queues (dict_set (device, p) []) dp).
Proof.
  induction q as [|[pkt t] q IH]; intros [|fuel] dp Hget Hfuel;
    try (simpl in Hfuel; lia);
    simpl; unfold packets_next; unfold_py; rewrite Hget.
  - simpl. f_equal. symmetry. apply with_packet_queues_same.
    now apply dict_set_same.
  - rewrite (IH fuel); [ | simpl; apply dict_get_set_eq | simpl in Hfuel; lia].
    simpl. f_equal. apply with_packet_queues_set_set.
Qed.

(** X10.  [packets(device, port)] for a port that has a queue yields the
    frames of that queue, oldest first, each with the port number, and
    leaves the queue empty and everything else as it was; for a port that
    has no queue it raises [KeyError] and changes nothing. *)
Theorem packets_one_port (device p : nat) (dp : DataPlane) :
  (dict_get (device, p) (packet_queues dp) = None ->
   packets device (Some p) dp = (Exc KeyError, dp))
  /\ (forall q,
        dict_get (device, p) (packet_queues dp) = Some q ->
        packets device (Some p) dp
        = (Val (map (fun x => (p, x.1, x.2)) q),
           with_packet_queues (dict_set (device, p) []) dp)).
Proof.
  split.
  - intros Hnone. unfold packets. simpl. unfold packets_next. unfold_py.
    now rewrite Hnone.
  - intros q Hget. unfold packets.
    apply packets_upto_one_port; [exact Hget | ].
    pose proof (queued_ge _ _ _ Hget). lia.
Qed.

Lemma yielded_for_cons (p p0 : nat) (pkt : bytes) (t : Z)
    (ys : list (nat * bytes * Z)) :
  yielded_for p ((p0, pkt, t) :: ys)
  = if decide (p0 = p) then (pkt, t) :: yielded_for p ys
    else yielded_for p ys.
Proof.
  unfold yielded_for. simpl. destruct (decide (p0 = p)); reflexivity.
Qed.

Lemma packets_upto_fifo (device : nat) (fuel : nat) :
  forall dp : DataPlane,
    NoDup (dict_keys (packet_queues dp)) ->
    queued dp < fuel ->
    exists ys dp',
      packets_upto fuel device None dp = (Val ys, dp')
      /\ (forall p, yielded_for p ys
                    = default [] (dict_get (device, p) (packet_queues dp)))
      /\ queues_empty dp' device
      /\ (forall k, k.1 <> device ->
             dict_get k (packet_queues dp') = dict_get k (packet_queues dp)).
Proof.
  induction fuel as [|fuel IH]; intros dp Hnd Hfuel; [lia | ].
  simpl. unfold bind.
  destruct (packets_next_any dp device Hnd)
    as [[Hempty ->]|(p0 & pkt & t & rest & Hget & _ & ->)].
  - exists [], dp. unfold ret. split; [reflexivity | ].
    split; [ | split; [exact Hempty | reflexivity]].
    intros p. destruct (dict_get (device, p) (packet_queues dp)) as [q|] eqn:Hq;
      [ | reflexivity].
    now rewrite (Hempty p q Hq).
  - set (dp1 := with_packet_queues (dict_set (device, p0) rest) dp).
    destruct (IH dp1) as (ys & dp' & Hrun & Hfifo & Hempty & Hother).
    { subst dp1. simpl. now apply dict_set_NoDup. }
    { pose proof (queued_set _ _ rest dp Hget) as Hq.
      cbn [length] in Hq. subst dp1. lia. }
    exists ((p0, pkt, t) :: ys), dp'. rewrite Hrun. unfold ret.
    split; [reflexivity | ]. split; [ | split; [exact Hempty | ]].
    + intros p. rewrite yielded_for_cons, Hfifo. subst dp1. simpl.
      destruct (decide (p0 = p)) as [<-|Hne].
      * now rewrite dict_get_set_eq, Hget.
      * rewrite dict_get_set_ne by congruence. reflexivity.
    + intros k Hk. rewrite (Hother k Hk). subst dp1. simpl.
      apply dict_get_set_ne. intros <-. now apply Hk.
Qed.

(** X11.  [packets(device)] without a port loses, duplicates and reorders
    nothing within a port: on an engine whose queue dictionary has each
    key once it runs to its end without raising, the frames it yields for
    a port are exactly the queue of that port, oldest first (none for a
    port without queue), every queue of the device is empty afterwards,
    and the queues of other devices are untouched. *)
Theorem packets_all_ports_fifo (device : nat) (dp : DataPlane) :
  NoDup (dict_keys (packet_queues dp)) ->
  exists ys dp',
    packets device None dp = (Val ys, dp')
    /\ (forall p, yielded_for p ys
                  = default [] (dict_get (device, p) (packet_queues dp)))
    /\ queues_empty dp' device
    /\ (forall k, k.1 <> device ->
           dict_get k (packet_queues dp') = dict_get k (packet_queues dp)).
Proof.
  intros Hnd. unfold packets. apply packets_upto_fifo; [exact Hnd | lia].
Qed.

Lemma packets_all_ports_fifo_witness :
  exists ys dp',
    packets 0 None engine_two_ports = (Val ys, dp')
    /\ (forall p, yielded_for p ys
                  = default [] (dict_get (0, p) (packet_queues engine_two_ports)))
    /\ queues_empty dp' 0
    /\ (forall k, k.1 <> 0 ->
           dict_get k (packet_queues dp')
           = dict_get k (packet_queues engine_two_ports)).
Proof.
  apply packets_all_ports_fifo.
  apply (bool_decide_unpack _). vm_compute. exact I.
Defined.

(** ** [poll], when it succeeds *)

Lemma accepts_Some (e : expected) (pkt : bytes) :
  accepts (Some e) pkt = match_exp_pkt e pkt.
Proof.
  destruct e as [m|e]; simpl; [reflexivity | ].
  destruct (decide (e = [])) as [->|Hne].
  - reflexivity.
  - rewrite (bool_decide_eq_false_2 (e = [])) by assumption. reflexivity.
Qed.

Lemma timed_wait_success (device : nat) (port_number : option nat)
    (exp_pkt : option expected) (filters : list (bytes -> bool))
    (wakes : list (list event)) :
  forall (dp : DataPlane) (g g' : grab_log) (r : poll_result)
         (dp' : DataPlane),
    timed_wait (grab device port_number exp_pkt filters) wakes g dp
    = (Val (g', Some r), dp') ->
    exists p pkt t,
      r = PollSuccess_new device p pkt exp_pkt t
      /\ filter_check filters pkt = true
      /\ accepts exp_pkt pkt = true.
Proof.
  induction wakes as [|evs wakes IH]; intros dp g g' r dp' Hrun;
    simpl in Hrun; unfold bind in Hrun;
    destruct (grab device port_number exp_pkt filters g dp)
      as [[[g1 [res|]]|e] dp1] eqn:Hgrab;
    try discriminate;
    unfold grab in Hgrab;
    (apply grab_upto_spec in Hgrab as (ys & _ & _ & Hres); [ | lia]).
  - unfold ret in Hrun. injection Hrun as _ <- _.
    destruct Hres as (ys0 & p & pkt & t & _ & _ & Hf & Ha & ->).
    exists p, pkt, t. auto.
  - unfold ret in Hrun. injection Hrun as _ <- _.
    destruct Hres as (ys0 & p & pkt & t & _ & _ & Hf & Ha & ->).
    exists p, pkt, t. auto.
  - unfold modify in Hrun. eapply IH. exact Hrun.
Qed.

(** X12.  Whatever happens while it waits, a [PollSuccess] that [poll]
    returns names the device that was asked for, carries the [exp_pkt]
    that was given, and holds a frame that passed every filter and, when
    an [exp_pkt] was given, matches it in the sense of [match_exp_pkt]. *)
Theorem poll_success_sound (dp : DataPlane) (device_number : nat)
    (port_number : option nat) (wakes : list (list event))
    (exp_pkt : option expected) (filters : list (bytes -> bool))
    (t : PollResult) (e : option expected) (dp' : DataPlane) :
  poll device_number port_number wakes exp_pkt filters dp
  = (Val (PollSuccess t e), dp') ->
  exists p pkt ts,
    t = {| device := Some device_number; port := Some p;
           packet := Some pkt; time := Some ts |}
    /\ e = exp_pkt
    /\ Forall (fun f => f pkt = true) filters
    /\ (forall x, exp_pkt = Some x -> match_exp_pkt x pkt = true).
Proof.
  unfold poll, bind. intros Hpoll.
  destruct (timed_wait (grab device_number port_number exp_pkt filters) wakes
                       grab_log_new dp) as [[[g [r|]]|ex] dp1] eqn:Hwait;
    try discriminate.
  apply timed_wait_success in Hwait as (p & pkt & ts & -> & Hf & Ha).
  unfold ret, PollSuccess_new in Hpoll. injection Hpoll as <- <- _.
  exists p, pkt, ts. split; [reflexivity | ]. split; [reflexivity | ]. split.
  - unfold filter_check in Hf.
    pose proof (proj1 (forallb_forall _ _) Hf) as Hall.
    apply Forall_forall. intros f Hin. apply Hall.
    now apply list_elem_of_In.
  - intros x ->. now rewrite <- accepts_Some.
Qed.

Lemma poll_success_sound_witness :
  exists p pkt ts,
    {| device := Some 0; port := Some 2; packet := Some [x05]%byte;
       time := Some 5%Z |}
    = {| device := Some 0; port := Some p; packet := Some pkt;
         time := Some ts |}
    /\ Some (ExpPkt [x05]%byte) = Some (ExpPkt [x05]%byte)
    /\ Forall (fun f => f pkt = true) []
    /\ (forall x, Some (ExpPkt [x05]%byte) = Some x ->
                  match_exp_pkt x pkt = true).
Proof.
  apply (poll_success_sound engine_two_ports 0 None []
           (Some (ExpPkt [x05]%byte)) [] _ _
           (poll 0 None [] (Some (ExpPkt [x05]%byte)) [] engine_two_ports).2).
  vm_compute. reflexivity.
Defined.

(** X13.  Without [exp_pkt] and without filters, [poll(device)] on an
    engine whose queue dictionary has each key once and where
    [oldest_port_number] finds port [p] returns at once, whatever was
    scheduled for later: a [PollSuccess] for the head of the queue of [p],
    whose timestamp is the least among the heads of the device, and only
    that frame is taken out. *)
Theorem poll_returns_oldest (dp : DataPlane) (device_number p : nat)
    (wakes : list (list event)) :
  NoDup (dict_keys (packet_queues dp)) ->
  oldest_port_number dp device_number = Some p ->
  exists pkt t rest,
    dict_get (device_number, p) (packet_queues dp) = Some ((pkt, t) :: rest)
    /\ (forall p' pkt' t' rest',
          dict_get (device_number, p') (packet_queues dp)
          = Some ((pkt', t') :: rest') -> (t <= t')%Z)
    /\ poll device_number None wakes None [] dp
       = (Val (PollSuccess_new device_number p pkt None t),
          with_packet_queues (dict_set (device_number, p) rest) dp).
Proof.
  intros Hnd Hold.
  destruct (oldest_port_number_Some dp device_number p Hnd Hold)
    as (pkt & t & rest & Hget & Hmin).
  exists pkt, t, rest. split; [exact Hget | ]. split; [exact Hmin | ].
  unfold poll, bind.
  assert (Hgrab : grab device_number None None [] grab_log_new dp
                  = (Val (grab_log_record pkt grab_log_new,
                          Some (PollSuccess_new device_number p pkt None t)),
                     with_packet_queues (dict_set (device_number, p) rest) dp)).
  { unfold grab. simpl. unfold packets_next. unfold_py.
    rewrite Hold, Hget. reflexivity. }
  destruct wakes; simpl; unfold bind; rewrite Hgrab; reflexivity.
Qed.

Lemma poll_returns_oldest_witness :
  exists pkt t rest,
    dict_get (0, 2) (packet_queues engine_two_ports) = Some ((pkt, t) :: rest)
    /\ (forall p' pkt' t' rest',
          dict_get (0, p') (packet_queues engine_two_ports)
          = Some ((pkt', t') :: rest') -> (t <= t')%Z)
    /\ poll 0 None [[EvFlush]] None [] engine_two_ports
       = (Val (PollSuccess_new 0 2 pkt None t),
          with_packet_queues (dict_set (0, 2) rest) engine_two_ports).
Proof.
  apply poll_returns_oldest.
  - apply (bool_decide_unpack _). vm_compute. exact I.
  - vm_compute. reflexivity.
Defined.

(** X14.  When [poll] succeeds on its first drain, the frames that came
    out of the queues before the match were each the head of a queue,
    were removed, and had failed a filter or the match; the matching
    frame is the last one removed, and nothing behind it is touched. *)
Theorem poll_discards_until_match (dp : DataPlane) (device_number : nat)
    (port_number : option nat) (exp_pkt : option expected)
    (filters : list (bytes -> bool)) (t : PollResult)
    (e : option expected) (dp' : DataPlane) :
  poll device_number port_number [] exp_pkt filters dp
  = (Val (PollSuccess t e), dp') ->
  exists ys0 p pkt ts,
    pops device_number port_number dp (ys0 ++ [(p, pkt, ts)]) dp'
    /\ Forall (rejected exp_pkt filters) ys0
    /\ t = {| device := Some device_number; port := Some p;
              packet := Some pkt; time := Some ts |}.
Proof.
  unfold poll, bind. simpl. unfold bind. intros Hpoll.
  destruct (grab device_number port_number exp_pkt filters grab_log_new dp)
    as [[[g [r|]]|ex] dp1] eqn:Hgrab; try discriminate.
  unfold grab in Hgrab.
  apply grab_upto_spec in Hgrab as (ys & Hpops & _ & Hres); [ | lia].
  destruct Hres as (ys0 & p & pkt & ts & -> & Hrej & _ & _ & ->).
  unfold ret, PollSuccess_new in Hpoll. injection Hpoll as <- _ <-.
  exists ys0, p, pkt, ts. auto.
Qed.

Lemma poll_discards_until_match_witness :
  exists ys0 p pkt ts,
    pops 0 None engine_two_ports (ys0 ++ [(p, pkt, ts)])
         (poll 0 None [] (Some (ExpPkt [x0a]%byte)) [] engine_two_ports).2
    /\ Forall (rejected (Some (ExpPkt [x0a]%byte)) []) ys0
    /\ {| device := Some 0; port := Some 1; packet := Some [x0a]%byte;
          time := Some 10%Z |}
       = {| device := Some 0; port := Some p; packet := Some pkt;
            time := Some ts |}.
Proof.
  apply (poll_discards_until_match engine_two_ports 0 None
           (Some (ExpPkt [x0a]%byte)) [] _ (Some (ExpPkt [x0a]%byte))).
  vm_compute. reflexivity.
Defined.

(** X15.  Right after [flush], a poll that is given no time to wait
    examines nothing: for every registered port, and for all ports of a
    device at once, it returns a [PollFailure] with no recent packet and
    a count of zero, and leaves the engine as [flush] left it. *)
Theorem poll_after_flush (dp : DataPlane) (device_number : nat)
    (port_number : option nat) (exp_pkt : option expected)
    (filters : list (bytes -> bool)) :
  NoDup (dict_keys (packet_queues dp)) ->
  (forall p, port_number = Some p ->
             (device_number, p) ∈ dict_keys (packet_queues dp)) ->
  poll device_number port_number [] exp_pkt filters (flush dp).2
  = (Val (PollFailure_new exp_pkt [] 0), (flush dp).2).
Proof.
  intros Hnd Hreg.
  destruct (flush_effect dp) as (_ & Hempty & Hkeys & _).
  set (dp1 := (flush dp).2) in *.
  assert (Hstop : packets_next device_number port_number dp1 = (Val None, dp1)).
  { unfold packets_next. unfold_py. destruct port_number as [p|].
    - rewrite (Hempty _ (Hreg p eq_refl)). reflexivity.
    - replace (oldest_port_number dp1 device_number) with (@None nat);
        [reflexivity | ].
      symmetry. apply oldest_port_number_None; [now rewrite Hkeys | ].
      intros p q Hq.
      assert (Hin : (device_number, p) ∈ dict_keys (packet_queues dp)).
      { rewrite <- Hkeys. apply dict_get_is_Some. now exists q. }
      rewrite (Hempty _ Hin) in Hq. congruence. }
  unfold poll, bind. simpl. unfold bind, grab. simpl. unfold bind.
  rewrite Hstop. reflexivity.
Qed.

Lemma poll_after_flush_witness :
  poll 0 (Some 1) [] (Some (ExpPkt [x0a]%byte)) [] (flush engine_two_ports).2
  = (Val (PollFailure_new (Some (ExpPkt [x0a]%byte)) [] 0),
     (flush engine_two_ports).2).
Proof.
  apply poll_after_flush.
  - apply (bool_decide_unpack _). vm_compute. exact I.
  - intros p [= <-]. apply (bool_decide_unpack _). vm_compute. exact I.
Defined.

(** * The nanomsg source: wire format, registration and queries *)

(** ** [struct.pack] and [struct.unpack_from] *)

Lemma byte_of_Z_to_N (z : Z) :
  Z.of_N (Byte.to_N (byte_of_Z z)) = (z mod 256)%Z.
Proof.
  unfold byte_of_Z.
  assert (Hr : (0 <= z mod 256 < 256)%Z) by (apply Z.mod_pos_bound; lia).
  destruct (Byte.of_N (Z.to_N (z mod 256))) as [b|] eqn:Hb; simpl.
  - apply Byte.to_of_N in Hb. rewrite Hb. lia.
  - apply Byte.of_N_None_iff in Hb. lia.
Qed.

Lemma unpack_i_le_bytes (v : Z) (rest : bytes) :
  int32 v -> unpack_i (le_bytes v ++ rest) = Val v.
Proof.
  unfold int32. intros Hv. unfold le_bytes, unpack_i, le_int32. cbv zeta.
  simpl app. f_equal.
  rewrite !byte_of_Z_to_N, !Z.shiftl_mul_pow2, !Z.shiftr_div_pow2 by lia.
  set (u := (v mod 2 ^ 32)%Z).
  assert (Hu : (0 <= u < 2 ^ 32)%Z) by (apply Z.mod_pos_bound; lia).
  assert (Hsum : (u mod 256 + u / 2 ^ 8 mod 256 * 2 ^ 8
                  + u / 2 ^ 16 mod 256 * 2 ^ 16
                  + u / 2 ^ 24 mod 256 * 2 ^ 24 = u)%Z).
  { change (2 ^ 8)%Z with 256%Z. change (2 ^ 16)%Z with 65536%Z.
    change (2 ^ 24)%Z with 16777216%Z.
    change (2 ^ 32)%Z with 4294967296%Z in Hu.
    Z.div_mod_to_equations. lia. }
  rewrite Hsum. subst u.
  change (2 ^ 32)%Z with 4294967296%Z in *.
  change (2 ^ 31)%Z with 2147483648%Z in *.
  destruct (Z.ltb_spec (v mod 4294967296) 2147483648);
    Z.div_mod_to_equations; lia.
Qed.

Lemma drop_le_bytes (v : Z) (rest : bytes) : drop 4 (le_bytes v ++ rest) = rest.
Proof. reflexivity. Qed.

Lemma pack_iii_unpack (a b c : Z) (payload : bytes) :
  int32 a -> int32 b -> int32 c ->
  pack_iii a b c = Val (le_bytes a ++ le_bytes b ++ le_bytes c)
  /\ unpack_iii ((le_bytes a ++ le_bytes b ++ le_bytes c) ++ payload)
     = Val (a, b, c)
  /\ drop 12 ((le_bytes a ++ le_bytes b ++ le_bytes c) ++ payload) = payload.
Proof.
  intros Ha Hb Hc. split; [ | split].
  - unfold pack_iii, pack_i. now rewrite !decide_True.
  - rewrite <- !app_assoc. unfold unpack_iii, unpack_ii.
    rewrite (unpack_i_le_bytes a) by assumption.
    rewrite drop_le_bytes.
    rewrite (unpack_i_le_bytes b) by assumption.
    rewrite drop_le_bytes.
    rewrite (unpack_i_le_bytes c) by assumption. reflexivity.
  - reflexivity.
Qed.

(** X16.  Header round trip: for three values in the signed 32-bit
    range, [struct.pack("<iii", a, b, c)] gives 12 bytes from which
    [struct.unpack_from("<iii", ...)] reads [(a, b, c)] back, whatever
    payload follows, and the payload is what is left after the header; a
    value outside the range makes [pack] raise [struct.error]. *)
Theorem header_round_trip (a b c : Z) :
  (int32 a -> int32 b -> int32 c ->
   exists hdr,
     pack_iii a b c = Val hdr
     /\ length hdr = 12
     /\ forall payload,
          unpack_iii (hdr ++ payload) = Val (a, b, c)
          /\ drop 12 (hdr ++ payload) = payload)
  /\ (~ (int32 a /\ int32 b /\ int32 c) -> pack_iii a b c = Exc StructError).
Proof.
  split.
  - intros Ha Hb Hc. exists (le_bytes a ++ le_bytes b ++ le_bytes c).
    split; [now apply (pack_iii_unpack a b c []) | ].
    split; [reflexivity | ].
    intros payload. now apply pack_iii_unpack.
  - intros Hout. unfold pack_iii, pack_i.
    destruct (decide (int32 a)); [ | reflexivity].
    destruct (decide (int32 b)); [ | reflexivity].
    destruct (decide (int32 c)); [tauto | reflexivity].
Qed.

(** ** [recv] on what a peer encodes *)

(** X17.  A [PACKET_OUT] message that a peer builds for a registered
    port, the header packed with [<iii] and the frame after it, is read
    back by [recv] as exactly [(device, port, frame, now)], and [recv]
    changes nothing in the source. *)
Theorem recv_packet_out_round_trip (s : NN.source) (port_number : Z)
    (frame : bytes) (now : Z) :
  port_number ∈ NN.ports s ->
  int32 port_number ->
  int32 (Z.of_nat (length frame)) ->
  exists hdr,
    pack_iii NN.MSG_TYPE_PACKET_OUT port_number (Z.of_nat (length frame))
    = Val hdr
    /\ NN.recv (hdr ++ frame) now s
       = (Val (Some (NN.device_number s, port_number, frame, now)), s).
Proof.
  intros Hin Hport Hlen.
  assert (Htype : int32 NN.MSG_TYPE_PACKET_OUT)
    by (apply (bool_decide_unpack _); vm_compute; exact I).
  destruct (pack_iii_unpack NN.MSG_TYPE_PACKET_OUT port_number
              (Z.of_nat (length frame)) frame Htype Hport Hlen)
    as (Hpack & Hunpack & Hdrop).
  eexists. split; [exact Hpack | ].
  unfold NN.recv, calcsize_iii. unfold_py. rewrite Hunpack, Hdrop.
  rewrite decide_False by tauto.
  rewrite decide_False by discriminate.
  rewrite decide_False by (intros Hs; now apply Hs).
  rewrite decide_False by (intros Hs; now apply Hs).
  reflexivity.
Qed.

Lemma recv_packet_out_round_trip_witness :
  exists hdr,
    pack_iii NN.MSG_TYPE_PACKET_OUT 1 (Z.of_nat (length [xaa; xbb]%byte))
    = Val hdr
    /\ NN.recv (hdr ++ [xaa; xbb]%byte) 5%Z nn_source_port_one
       = (Val (Some (NN.device_number nn_source_port_one, 1%Z,
                     [xaa; xbb]%byte, 5%Z)),
          nn_source_port_one).
Proof.
  apply recv_packet_out_round_trip.
  - vm_compute. reflexivity.
  - apply (bool_decide_unpack _). vm_compute. exact I.
  - apply (bool_decide_unpack _). vm_compute. exact I.
Defined.

(** X18.  A counters reply whose status is not success makes [recv]
    raise [TypeError]: [__handle_info_rep] sets [msg] to [None] and the
    counters branch unpacks it all the same.  No cache is written and the
    condition is not notified. *)
Theorem recv_refused_counters_raises (s : NN.source) (msg : bytes)
    (now port_number status : Z) :
  unpack_iii msg
  = Val (NN.MSG_TYPE_INFO_REP, port_number, NN.MSG_INFO_TYPE_CTRS) ->
  port_number ∈ NN.ports s ->
  unpack_i (drop 12 msg) = Val status ->
  status <> NN.MSG_INFO_STATUS_SUCCESS ->
  NN.recv msg now s = (Exc TypeError, s).
Proof.
  intros Hhdr Hin Hst Hne.
  unfold NN.recv, NN.handle_info_rep, calcsize_iii. unfold_py.
  rewrite Hhdr. rewrite decide_False by tauto.
  rewrite decide_True by reflexivity. rewrite Hst.
  destruct (decide (status <> NN.MSG_INFO_STATUS_SUCCESS)); [ | tauto].
  rewrite decide_False by discriminate.
  rewrite decide_True by reflexivity. reflexivity.
Qed.

Lemma recv_refused_counters_raises_witness :
  NN.recv msg_ctrs_refused_port_one 5%Z nn_source_port_one
  = (Exc TypeError, nn_source_port_one).
Proof.
  apply (recv_refused_counters_raises _ _ _ 1%Z 1%Z).
  - vm_compute. reflexivity.
  - vm_compute. reflexivity.
  - vm_compute. reflexivity.
  - discriminate.
Defined.

(** ** Sending and registration on the nanomsg source *)

Lemma send_port_msg_ok (e : NNPort.endpoint) (msg_type port_number more : Z) :
  int32 msg_type -> int32 port_number -> int32 more ->
  NNPort.send_port_msg msg_type port_number more e
  = (Val tt,
     {| NNPort.src := NNPort.src e;
        NNPort.outbox :=
          NNPort.outbox e
          ++ [le_bytes msg_type ++ le_bytes port_number ++ le_bytes more] |}).
Proof.
  intros Ht Hp Hm. unfold NNPort.send_port_msg, NNPort.socket_send. unfold_py.
  destruct (pack_iii_unpack msg_type port_number more [] Ht Hp Hm) as (-> & _).
  reflexivity.
Qed.

Lemma int32_small (v : Z) : (0 <= v <= 6)%Z -> int32 v.
Proof. unfold int32. lia. Qed.

(** X19.  [send] on the nanomsg source hands one message to the socket:
    the header [(PACKET_IN, port, len(packet))] followed by the packet
    itself, so that the peer reads back the port and the packet; it
    returns [len(packet)] and changes nothing else.  A port number
    outside the signed 32-bit range makes it raise [struct.error] with
    nothing sent. *)
Theorem nn_send_wire_format (e : NNPort.endpoint) (port_number : Z)
    (packet : bytes) :
  (int32 port_number ->
   int32 (Z.of_nat (length packet)) ->
   exists msg,
     NNPort.send port_number packet e
     = (Val (length packet),
        {| NNPort.src := NNPort.src e;
           NNPort.outbox := NNPort.outbox e ++ [msg] |})
     /\ unpack_iii msg
        = Val (NN.MSG_TYPE_PACKET_IN, port_number, Z.of_nat (length packet))
     /\ drop 12 msg = packet)
  /\ (~ int32 port_number ->
      NNPort.send port_number packet e = (Exc StructError, e)).
Proof.
  split.
  - intros Hp Hlen.
    destruct (pack_iii_unpack NN.MSG_TYPE_PACKET_IN port_number
                (Z.of_nat (length packet)) packet)
      as (Hpack & Hunpack & Hdrop); [now apply int32_small | assumption .. | ].
    eexists. split; [ | split; [exact Hunpack | exact Hdrop]].
    unfold NNPort.send, NNPort.socket_send. unfold_py. now rewrite Hpack.
  - intros Hout. unfold NNPort.send, pack_iii, pack_i. unfold_py.
    rewrite (decide_True (P := int32 NN.MSG_TYPE_PACKET_IN))
      by now apply int32_small.
    now rewrite (decide_False (P := int32 port_number)).
Qed.

(** X20.  [port_add] on the nanomsg source registers the port and sends
    one [PORT_ADD] header for it.  The port is put in the set before the
    header is packed: a port number outside the signed 32-bit range is
    registered locally, nothing is sent, and [struct.error] is raised. *)
Theorem nn_port_add_effect (e : NNPort.endpoint) (port_number : Z) :
  (int32 port_number ->
   exists hdr,
     NNPort.port_add port_number e
     = (Val tt,
        {| NNPort.src :=
             NNPort.with_ports (fun ps => ps ∪ {[ port_number ]})
                               (NNPort.src e);
           NNPort.outbox := NNPort.outbox e ++ [hdr] |})
     /\ unpack_iii hdr = Val (NN.MSG_TYPE_PORT_ADD, port_number, 0%Z))
  /\ (~ int32 port_number ->
      (NNPort.port_add port_number e).1 = Exc StructError
      /\ NNPort.outbox (NNPort.port_add port_number e).2 = NNPort.outbox e)
  /\ port_number ∈ NN.ports (NNPort.src (NNPort.port_add port_number e).2).
Proof.
  split; [ | split].
  - intros Hp.
    destruct (pack_iii_unpack NN.MSG_TYPE_PORT_ADD port_number 0 [])
      as (_ & Hunpack & _);
      [now apply int32_small | assumption | now apply int32_small | ].
    rewrite app_nil_r in Hunpack.
    eexists. split; [ | exact Hunpack].
    unfold NNPort.port_add. unfold bind, modify.
    rewrite send_port_msg_ok;
      [reflexivity | now apply int32_small | assumption | now apply int32_small].
  - intros Hout.
    unfold NNPort.port_add, NNPort.send_port_msg, pack_iii, pack_i. unfold_py.
    rewrite (decide_True (P := int32 NN.MSG_TYPE_PORT_ADD))
      by now apply int32_small.
    rewrite (decide_False (P := int32 port_number)) by assumption.
    split; reflexivity.
  - unfold NNPort.port_add, NNPort.send_port_msg, NNPort.socket_send. unfold_py.
    destruct (pack_iii NN.MSG_TYPE_PORT_ADD port_number 0); simpl;
      apply elem_of_union; right; now apply elem_of_singleton.
Qed.

(** X21.  [port_remove] on the nanomsg source raises [KeyError] for a
    port that is not registered and sends nothing; for a registered port
    it sends one [PORT_REMOVE] header, and from then on [recv] answers
    every message addressed to that port, whatever its type, with the
    no-data value and leaves the caches alone. *)
Theorem nn_port_remove_effect (e : NNPort.endpoint) (port_number : Z) :
  (port_number ∉ NN.ports (NNPort.src e) ->
   NNPort.port_remove port_number e = (Exc KeyError, e))
  /\ (port_number ∈ NN.ports (NNPort.src e) ->
      int32 port_number ->
      exists hdr,
        (NNPort.port_remove port_number e).1 = Val tt
        /\ NNPort.outbox (NNPort.port_remove port_number e).2
           = NNPort.outbox e ++ [hdr]
        /\ unpack_iii hdr = Val (NN.MSG_TYPE_PORT_REMOVE, port_number, 0%Z)
        /\ forall msg now msg_type more,
             unpack_iii msg = Val (msg_type, port_number, more) ->
             NN.recv msg now (NNPort.src (NNPort.port_remove port_number e).2)
             = (Val None, NNPort.src (NNPort.port_remove port_number e).2)).
Proof.
  split.
  - intros Hout. unfold NNPort.port_remove. unfold_py.
    now rewrite decide_False.
  - intros Hin Hp.
    destruct (pack_iii_unpack NN.MSG_TYPE_PORT_REMOVE port_number 0 [])
      as (_ & Hunpack & _);
      [now apply int32_small | assumption | now apply int32_small | ].
    rewrite app_nil_r in Hunpack.
    eexists. unfold NNPort.port_remove. unfold bind, get, modify.
    rewrite decide_True by assumption.
    rewrite send_port_msg_ok;
      [ | now apply int32_small | assumption | now apply int32_small].
    simpl. split; [reflexivity | ]. split; [reflexivity | ].
    split; [exact Hunpack | ].
    intros msg now msg_type more Hhdr.
    unfold NN.recv. unfold_py. rewrite Hhdr. simpl.
    rewrite decide_True; [reflexivity | ].
    intros Hin'. apply elem_of_difference in Hin' as [_ Hnot].
    apply Hnot. now apply elem_of_singleton.
Qed.

Lemma nn_port_remove_effect_witness :
  exists hdr,
    (NNPort.port_remove 1 nn_endpoint_port_one).1 = Val tt
    /\ NNPort.outbox (NNPort.port_remove 1 nn_endpoint_port_one).2
       = NNPort.outbox nn_endpoint_port_one ++ [hdr]
    /\ unpack_iii hdr = Val (NN.MSG_TYPE_PORT_REMOVE, 1%Z, 0%Z)
    /\ forall msg now msg_type more,
         unpack_iii msg = Val (msg_type, 1%Z, more) ->
         NN.recv msg now
                 (NNPort.src (NNPort.port_remove 1 nn_endpoint_port_one).2)
         = (Val None,
            NNPort.src (NNPort.port_remove 1 nn_endpoint_port_one).2).
Proof.
  destruct (nn_port_remove_effect nn_endpoint_port_one 1) as [_ Hin].
  apply Hin.
  - vm_compute. reflexivity.
  - apply (bool_decide_unpack _). vm_compute. exact I.
Defined.

(** ** [get_mac] and [get_nn_counters] *)

Lemma deliver_one (msg : bytes) (now : Z) (e : NNPort.endpoint) :
  NNPort.deliver [(msg, now)] e
  = (Val tt,
     {| NNPort.src := (NN.recv msg now (NNPort.src e)).2;
        NNPort.outbox := NNPort.outbox e |}).
Proof. reflexivity. Qed.

(** X22.  Once a hardware-address reply for a registered port has been
    received, [get_mac] for that port answers from the cache: it returns
    at once, sends no request and changes nothing, whatever the timeout.
    After a reply with a status other than success the cache holds
    [None], so the answer stays [None] and the peer is not asked again. *)
Theorem get_mac_after_reply (e : NNPort.endpoint) (msg : bytes)
    (now port_number status timeout clock0 clock1 : Z)
    (rounds : list (list (bytes * Z) * Z)) :
  unpack_iii msg
  = Val (NN.MSG_TYPE_INFO_REP, port_number, NN.MSG_INFO_TYPE_HWADDR) ->
  port_number ∈ NN.ports (NNPort.src e) ->
  unpack_i (drop 12 msg) = Val status ->
  NNPort.get_mac port_number timeout clock0 clock1 rounds
                 (NNPort.deliver [(msg, now)] e).2
  = (Val (Some (if decide (status = NN.MSG_INFO_STATUS_SUCCESS)
                then Some (drop 4 (drop 12 msg)) else None)),
     (NNPort.deliver [(msg, now)] e).2).
Proof.
  intros Hhdr Hin Hst.
  assert (Hrecv : (NN.recv msg now (NNPort.src e)).2
                  = NN.store_mac port_number
                      (if decide (status <> NN.MSG_INFO_STATUS_SUCCESS)
                       then None else Some (drop 4 (drop 12 msg)))
                      (NNPort.src e)).
  { unfold NN.recv, NN.handle_info_rep, calcsize_iii, calcsize_i. unfold_py.
    rewrite Hhdr. rewrite decide_False by tauto.
    rewrite decide_True by reflexivity. rewrite Hst.
    rewrite decide_True by reflexivity. reflexivity. }
  rewrite deliver_one, Hrecv.
  unfold NNPort.get_mac, NNPort.get_info, bind.
  destruct rounds as [|[inbound clock] rounds]; simpl;
    rewrite lookup_insert_eq; unfold ret; simpl;
    destruct (decide (status <> NN.MSG_INFO_STATUS_SUCCESS)) as [Hne|Heq];
    destruct (decide (status = NN.MSG_INFO_STATUS_SUCCESS)); try tauto;
    reflexivity.
Qed.

Lemma get_mac_after_reply_witness :
  NNPort.get_mac 1 2 100 100 []
                 (NNPort.deliver [(msg_mac_reply_port_one, 99%Z)]
                                 nn_endpoint_port_one).2
  = (Val (Some (if decide (0%Z = NN.MSG_INFO_STATUS_SUCCESS)
                then Some (drop 4 (drop 12 msg_mac_reply_port_one))
                else None)),
     (NNPort.deliver [(msg_mac_reply_port_one, 99%Z)]
                     nn_endpoint_port_one).2).
Proof.
  apply get_mac_after_reply.
  - vm_compute. reflexivity.
  - vm_compute. reflexivity.
  - vm_compute. reflexivity.
Defined.

Lemma get_info_loop_silent (port_number end_time : Z)
    (rounds : list (list (bytes * Z) * Z)) :
  forall (time_remaining : Z) (e : NNPort.endpoint),
    int32 port_number ->
    NN.nn_counters (NNPort.src e) !! port_number = None ->
    Forall (fun r => r.1 = []) rounds ->
    expires end_time time_remaining rounds ->
    (NNPort.get_info_loop port_number NN.nn_counters NNPort.request_ctrs
                          end_time time_remaining rounds e).1
    = Val (Some None)
    /\ NNPort.src
         (NNPort.get_info_loop port_number NN.nn_counters NNPort.request_ctrs
                               end_time time_remaining rounds e).2
       = NNPort.src e.
Proof.
  induction rounds as [|[inbound clock] rounds IH];
    intros time_remaining e Hp Hnone Hsilent Hexp; simpl; rewrite Hnone.
  - destruct Hexp as [Hle|[]].
    destruct (Z.ltb_spec 0 time_remaining); [lia | auto].
  - destruct (Z.ltb_spec 0 time_remaining); [ | auto].
    destruct Hexp as [Hle|Hexp]; [lia | ].
    apply Forall_cons in Hsilent as [Hin Hsilent]. simpl in Hin. subst inbound.
    unfold bind, NNPort.request_ctrs, NNPort.send_info_req_msg.
    rewrite send_port_msg_ok;
      [ | now apply int32_small | assumption | now apply int32_small].
    unfold NNPort.deliver, modify. simpl.
    match goal with
    | |- context [NNPort.get_info_loop _ _ _ _ _ _ ?e1] =>
        destruct (IH (end_time - clock)%Z e1 Hp Hnone Hsilent Hexp) as [Hr Hs]
    end.
    split; [exact Hr | exact Hs].
Qed.

(** X23.  [get_nn_counters] never answers from what was cached before
    the call: it deletes the entry first, so when the peer stays silent
    until the deadline it returns [None], whatever the cache held, and the
    cache has no entry for the port afterwards. *)
Theorem get_nn_counters_silent_peer (e : NNPort.endpoint)
    (port_number timeout clock0 clock1 : Z)
    (rounds : list (list (bytes * Z) * Z)) :
  int32 port_number ->
  Forall (fun r => r.1 = []) rounds ->
  expires (clock0 + timeout) (clock0 + timeout - clock1) rounds ->
  (NNPort.get_nn_counters port_number timeout clock0 clock1 rounds e).1
  = Val (Some None)
  /\ NN.nn_counters
       (NNPort.src
          (NNPort.get_nn_counters port_number timeout clock0 clock1 rounds e).2)
     !! port_number = None.
Proof.
  intros Hp Hsilent Hexp.
  unfold NNPort.get_nn_counters, NNPort.get_info. unfold bind, get.
  destruct (decide (is_Some (NN.nn_counters (NNPort.src e) !! port_number)))
    as [Hsome|Hnone]; unfold modify, ret.
  - match goal with
    | |- context [NNPort.get_info_loop _ _ _ _ _ _ ?e1] =>
        destruct (get_info_loop_silent port_number (clock0 + timeout) rounds
                    (clock0 + timeout - clock1) e1 Hp) as [Hr Hs];
          [simpl; apply lookup_delete_eq | assumption | assumption | ]
    end.
    split; [exact Hr | ]. rewrite Hs. simpl. apply lookup_delete_eq.
  - apply eq_None_not_Some in Hnone.
    destruct (get_info_loop_silent port_number (clock0 + timeout) rounds
                (clock0 + timeout - clock1) e Hp Hnone Hsilent Hexp)
      as [Hr Hs].
    split; [exact Hr | ]. now rewrite Hs.
Qed.

Lemma get_nn_counters_silent_peer_witness :
  (NNPort.get_nn_counters 1 2 100 100 [([], 101%Z); ([], 103%Z)]
     (NNPort.on_src (NN.store_ctrs 1 (7%Z, 8%Z)) nn_endpoint_port_one)).1
  = Val (Some None)
  /\ NN.nn_counters
       (NNPort.src
          (NNPort.get_nn_counters 1 2 100 100 [([], 101%Z); ([], 103%Z)]
             (NNPort.on_src (NN.store_ctrs 1 (7%Z, 8%Z))
                            nn_endpoint_port_one)).2)
     !! 1%Z = None.
Proof.
  apply get_nn_counters_silent_peer.
  - apply (bool_decide_unpack _). vm_compute. exact I.
  - repeat constructor.
  - simpl. right. right. left. lia.
Defined.

(** X24.  Request and reply: for a registered port without cache entry
    and with time left, [get_mac] sends one [INFO_REQ] header for the
    hardware address of the port, and when a successful reply carrying
    the address comes in during the first wait it returns that address;
    nothing else is sent. *)
Theorem get_mac_round_trip (e : NNPort.endpoint)
    (port_number timeout clock0 clock1 now clock : Z) (address : bytes)
    (rounds : list (list (bytes * Z) * Z)) :
  port_number ∈ NN.ports (NNPort.src e) ->
  int32 port_number ->
  NN.mac_addresses (NNPort.src e) !! port_number = None ->
  (0 < clock0 + timeout - clock1)%Z ->
  exists request reply,
    pack_iii NN.MSG_TYPE_INFO_REQ port_number NN.MSG_INFO_TYPE_HWADDR
    = Val request
    /\ pack_iii NN.MSG_TYPE_INFO_REP port_number NN.MSG_INFO_TYPE_HWADDR
       = Val reply
    /\ (NNPort.get_mac port_number timeout clock0 clock1
          (([(reply ++ le_bytes NN.MSG_INFO_STATUS_SUCCESS ++ address, now)],
            clock) :: rounds) e).1
       = Val (Some (Some address))
    /\ NNPort.outbox
         (NNPort.get_mac port_number timeout clock0 clock1
            (([(reply ++ le_bytes NN.MSG_INFO_STATUS_SUCCESS ++ address, now)],
              clock) :: rounds) e).2
       = NNPort.outbox e ++ [request].
Proof.
  intros Hin Hp Hnone Htime.
  destruct (pack_iii_unpack NN.MSG_TYPE_INFO_REQ port_number
              NN.MSG_INFO_TYPE_HWADDR [])
    as (Hreq & _ & _);
    [now apply int32_small | assumption | now apply int32_small | ].
  destruct (pack_iii_unpack NN.MSG_TYPE_INFO_REP port_number
              NN.MSG_INFO_TYPE_HWADDR
              (le_bytes NN.MSG_INFO_STATUS_SUCCESS ++ address))
    as (Hrep & Hunpack & Hdrop);
    [now apply int32_small | assumption | now apply int32_small | ].
  eexists. eexists. split; [exact Hreq | ]. split; [exact Hrep | ].
  set (reply := le_bytes NN.MSG_TYPE_INFO_REP ++ le_bytes port_number
                ++ le_bytes NN.MSG_INFO_TYPE_HWADDR) in *.
  set (msg := reply ++ le_bytes NN.MSG_INFO_STATUS_SUCCESS ++ address) in *.
  assert (Hrecv : (NN.recv msg now (NNPort.src e)).2
                  = NN.store_mac port_number (Some address) (NNPort.src e)).
  { unfold NN.recv, NN.handle_info_rep, calcsize_iii, calcsize_i. unfold_py.
    rewrite Hunpack. rewrite decide_False by tauto.
    rewrite decide_True by reflexivity. rewrite Hdrop.
    rewrite (unpack_i_le_bytes NN.MSG_INFO_STATUS_SUCCESS)
      by now apply int32_small.
    destruct (decide (NN.MSG_INFO_STATUS_SUCCESS <> NN.MSG_INFO_STATUS_SUCCESS));
      [congruence | ].
    rewrite decide_True by reflexivity. reflexivity. }
  unfold NNPort.get_mac, NNPort.get_info, bind. simpl. rewrite Hnone.
  destruct (Z.ltb_spec 0 (clock0 + timeout - clock1)); [ | lia].
  unfold bind, NNPort.request_mac, NNPort.send_info_req_msg.
  rewrite send_port_msg_ok;
    [ | now apply int32_small | assumption | now apply int32_small].
  rewrite deliver_one. cbn [NNPort.src NNPort.outbox fst snd]. rewrite Hrecv.
  destruct rounds as [|[inbound clock2] rounds]; simpl;
    rewrite lookup_insert_eq; unfold ret; simpl; split; reflexivity.
Qed.

Lemma get_mac_round_trip_witness :
  exists request reply,
    pack_iii NN.MSG_TYPE_INFO_REQ 1 NN.MSG_INFO_TYPE_HWADDR = Val request
    /\ pack_iii NN.MSG_TYPE_INFO_REP 1 NN.MSG_INFO_TYPE_HWADDR = Val reply
    /\ (NNPort.get_mac 1 2 100 100
          (([(reply ++ le_bytes NN.MSG_INFO_STATUS_SUCCESS
                    ++ [x02; x00; x00; x00; x00; x01]%byte, 100%Z)],
            101%Z) :: []) nn_endpoint_port_one).1
       = Val (Some (Some [x02; x00; x00; x00; x00; x01]%byte))
    /\ NNPort.outbox
         (NNPort.get_mac 1 2 100 100
            (([(reply ++ le_bytes NN.MSG_INFO_STATUS_SUCCESS
                      ++ [x02; x00; x00; x00; x00; x01]%byte, 100%Z)],
              101%Z) :: []) nn_endpoint_port_one).2
       = NNPort.outbox nn_endpoint_port_one ++ [request].
Proof.
  apply get_mac_round_trip.
  - vm_compute. reflexivity.
  - apply (bool_decide_unpack _). vm_compute. exact I.
  - vm_compute. reflexivity.
  - lia.
Defined.

(** * [DataPlane.__init__] *)

(** X25.  An engine cannot be built without a [platform] entry in its
    configuration: with the default argument [config=None], which becomes
    the empty dictionary, and with any configuration that lacks the key,
    [__init__] raises [KeyError], so that no engine is returned and the
    capture thread is not started; asking for platform [nn] on a host
    without [nnpy] fails the assertion. *)
Theorem init_needs_platform
    (construct : port_class -> string -> nat -> nat -> option Backend)
    (h : host) :
  DataPlane_new construct None h = Exc KeyError
  /\ (forall cfg, cfg_platform cfg = None ->
                  DataPlane_new construct (Some cfg) h = Exc KeyError)
  /\ (forall cfg, cfg_platform cfg = Some "nn"%string -> with_nnpy h = false ->
                  DataPlane_new construct (Some cfg) h = Exc AssertionError).
Proof.
  unfold DataPlane_new, select_dppclass. split; [reflexivity | ]. split.
  - intros cfg Hp. simpl. now rewrite Hp.
  - intros cfg Hp Hpy. simpl. now rewrite Hp, Hpy.
Qed.

(** X26.  Whatever the configuration and the host, [__init__] never
    selects [DataPlanePortPcap] ([have_pypcap] is the constant [False]);
    when it succeeds the engine starts with no port, no queue, every
    counter at zero, no tap, and the configured [qlen] or else 100; and
    platform [nn] wins over a configured port class, which wins over the
    choice by operating system. *)
Theorem init_selection
    (construct : port_class -> string -> nat -> nat -> option Backend)
    (cfg : config) (h : host) :
  select_dppclass cfg h <> Val ClsDataPlanePortPcap
  /\ (forall dp, DataPlane_new construct (Some cfg) h = Val dp ->
        ports dp = [] /\ packet_queues dp = []
        /\ (forall k, get_counters k.1 k.2 dp = (0, 0))
        /\ pcap_writer dp = None
        /\ killed dp = false
        /\ qlen dp = default MAX_QUEUE_LEN (cfg_qlen cfg))
  /\ (cfg_platform cfg = Some "nn"%string -> with_nnpy h = true ->
      select_dppclass cfg h = Val ClsDataPlanePortNN)
  /\ (forall platform cls,
        cfg_platform cfg = Some platform -> platform <> "nn"%string ->
        cfg_dataplane cfg = Some (Some cls) ->
        select_dppclass cfg h = Val (ClsCustom cls)).
Proof.
  split; [ | split; [ | split]].
  - unfold select_dppclass, have_pypcap.
    destruct (cfg_platform cfg) as [platform|]; [ | discriminate].
    destruct (String.eqb platform "nn").
    + destruct (with_nnpy h); discriminate.
    + destruct (cfg_dataplane cfg) as [[cls|]|];
        try discriminate; destruct (on_linux h); discriminate.
  - intros dp. unfold DataPlane_new. simpl.
    destruct (select_dppclass cfg h) as [cls|e]; [ | discriminate].
    intros [= <-]. simpl. repeat split.
  - intros Hnn Hpy. unfold select_dppclass. now rewrite Hnn, Hpy.
  - intros platform cls Hpf Hne Hcls. unfold select_dppclass.
    rewrite Hpf, Hcls.
    destruct (String.eqb_spec platform "nn"); [contradiction | reflexivity].
Qed.

(** * [packets] and [poll] over all ports of a device *)

Lemma packets_upto_oldest (device : nat) (fuel : nat) :
  forall dp : DataPlane,
    NoDup (dict_keys (packet_queues dp)) ->
    queued dp < fuel ->
    exists ys dp',
      packets_upto fuel device None dp = (Val ys, dp')
      /\ oldest_pops device dp ys dp'.
Proof.
  induction fuel as [|fuel IH]; intros dp Hnd Hfuel; [lia | ].
  simpl. unfold bind.
  destruct (packets_next_any dp device Hnd)
    as [[Hempty ->]|(p & pkt & t & rest & Hget & Hmin & ->)].
  - exists [], dp. split; [reflexivity | constructor].
  - destruct (IH (with_packet_queues (dict_set (device, p) rest) dp))
      as (ys & dp' & Hrun & Hpops).
    { simpl. now apply dict_set_NoDup. }
    { pose proof (queued_set _ _ rest dp Hget) as Hq.
      cbn [length] in Hq. lia. }
    exists ((p, pkt, t) :: ys), dp'. rewrite Hrun. unfold ret.
    split; [reflexivity | ].
    now apply (oldest_pops_cons device dp p pkt t rest).
Qed.

(** A poll for all ports, with no [exp_pkt] and no filter, returns the
    frame that [packets] yields first. *)
Lemma poll_first_frame (device p : nat) (pkt : bytes) (t : Z)
    (wakes : list (list event)) (dp dp1 : DataPlane) :
  packets_next device None dp = (Val (Some (p, pkt, t)), dp1) ->
  poll device None wakes None [] dp
  = (Val (success_of device (p, pkt, t)), dp1).
Proof.
  intros Hnext. unfold poll, bind.
  assert (Hgrab : grab device None None [] grab_log_new dp
                  = (Val (grab_log_record pkt grab_log_new,
                          Some (PollSuccess_new device p pkt None t)),
                     dp1)).
  { unfold grab. simpl. unfold bind. rewrite Hnext. reflexivity. }
  destruct wakes; simpl; unfold bind; rewrite Hgrab; reflexivity.
Qed.

Lemma polls_packets_upto (device : nat) (fuel : nat) :
  forall (dp : DataPlane) (ys : list (nat * bytes * Z)) (dp' : DataPlane),
    packets_upto fuel device None dp = (Val ys, dp') ->
    polls (length ys) device dp = (Val (map (success_of device) ys), dp').
Proof.
  induction fuel as [|fuel IH]; intros dp ys dp' Hrun; simpl in Hrun.
  - unfold ret in Hrun. injection Hrun as <- <-. reflexivity.
  - unfold bind in Hrun.
    destruct (packets_next_cases device None dp)
      as [Hnext|[[_ Hnext]|(p & pkt & t & rest & _ & _ & Hnext)]];
      rewrite Hnext in Hrun.
    + unfold ret in Hrun. injection Hrun as <- <-. reflexivity.
    + discriminate.
    + set (dp1 := with_packet_queues (dict_set (device, p) rest) dp) in *.
      destruct (packets_upto fuel device None dp1) as [[ys1|e] dp2] eqn:Hrest;
        [ | discriminate].
      unfold ret in Hrun. injection Hrun as <- <-.
      cbn [length polls map]. unfold bind.
      rewrite (poll_first_frame device p pkt t [] dp dp1 Hnext).
      rewrite (IH dp1 ys1 dp2 Hrest). reflexivity.
Qed.

(** C3.  On an engine whose queue dictionary has each key once,
    [packets(device)] runs to its end without raising.  Each frame it
    yields is, at the moment it is taken, the head of a queue of the
    device with the least timestamp among the heads of the device, and is
    removed from that queue; the frames yielded for a port are the queue
    of that port in order, and every queue of the device is empty at the
    end.  If the timestamps of every queue of the device are
    nondecreasing, the frames are yielded in nondecreasing timestamp
    order.  Polling the device as many times as [packets] yields frames
    returns these frames as successes, in the same order.  And
    [oldest_port_number(device)] is [None] exactly when every queue of the
    device is empty. *)
Theorem packets_oldest_first (dp : DataPlane) (device : nat) :
  NoDup (dict_keys (packet_queues dp)) ->
  (exists ys dp',
     packets device None dp = (Val ys, dp')
     /\ oldest_pops device dp ys dp'
     /\ (forall p, yielded_for p ys
                   = default [] (dict_get (device, p) (packet_queues dp)))
     /\ queues_empty dp' device
     /\ (queues_sorted dp device -> Sorted Z.le ys.*2)
     /\ polls (length ys) device dp = (Val (map (success_of device) ys), dp'))
  /\ (forall p pkt t dp',
        packets_next device None dp = (Val (Some (p, pkt, t)), dp') ->
        exists rest,
          dict_get (device, p) (packet_queues dp) = Some ((pkt, t) :: rest)
          /\ dp' = with_packet_queues (dict_set (device, p) rest) dp
          /\ forall p' pkt' t' rest',
               dict_get (device, p') (packet_queues dp)
               = Some ((pkt', t') :: rest') -> (t <= t')%Z)
  /\ (oldest_port_number dp device = None <-> queues_empty dp device).
Proof.
  intros Hnd. split; [ | split].
  - unfold packets.
    destruct (packets_upto_oldest device (S (queued dp)) dp Hnd)
      as (ys & dp' & Hrun & Hpops); [lia | ].
    destruct (packets_upto_fifo device (S (queued dp)) dp Hnd)
      as (ys1 & dp1 & Hrun1 & Hfifo & Hempty & _); [lia | ].
    rewrite Hrun in Hrun1. injection Hrun1 as <- <-.
    exists ys, dp'. split; [exact Hrun | ]. split; [exact Hpops | ].
    split; [exact Hfifo | ]. split; [exact Hempty | ]. split.
    + intros Hsorted.
      destruct (packets_upto_sorted device (S (queued dp)) dp Hnd Hsorted)
        as (ys2 & dp2 & Hrun2 & Hys & _); [lia | ].
      rewrite Hrun in Hrun2. injection Hrun2 as <- <-.
      now apply StronglySorted_Sorted.
    + now apply (polls_packets_upto device (S (queued dp))).
  - intros p pkt t dp' Hnext.
    destruct (packets_next_any dp device Hnd)
      as [[_ Hstop]|(p0 & pkt0 & t0 & rest & Hget & Hmin & Hyield)].
    + rewrite Hstop in Hnext. discriminate.
    + rewrite Hyield in Hnext. injection Hnext as <- <- <- <-.
      exists rest. auto.
  - now apply oldest_port_number_None.
Qed.

Lemma packets_oldest_first_witness :
  (exists ys dp',
     packets 0 None engine_two_ports = (Val ys, dp')
     /\ oldest_pops 0 engine_two_ports ys dp'
     /\ (forall p, yielded_for p ys
                   = default []
                       (dict_get (0, p) (packet_queues engine_two_ports)))
     /\ queues_empty dp' 0
     /\ Sorted Z.le ys.*2
     /\ polls (length ys) 0 engine_two_ports
        = (Val (map (success_of 0) ys), dp'))
  /\ (forall p pkt t dp',
        packets_next 0 None engine_two_ports = (Val (Some (p, pkt, t)), dp') ->
        exists rest,
          dict_get (0, p) (packet_queues engine_two_ports)
          = Some ((pkt, t) :: rest)
          /\ dp' = with_packet_queues (dict_set (0, p) rest) engine_two_ports
          /\ forall p' pkt' t' rest',
               dict_get (0, p') (packet_queues engine_two_ports)
               = Some ((pkt', t') :: rest') -> (t <= t')%Z)
  /\ (oldest_port_number engine_two_ports 0 = None
      <-> queues_empty engine_two_ports 0).
Proof.
  destruct (packets_oldest_first engine_two_ports 0)
    as ((ys & dp' & Hrun & Hpops & Hfifo & Hempty & Hsorted & Hpolls) & Hrest).
  - apply (bool_decide_unpack _). vm_compute. exact I.
  - split; [ | exact Hrest].
    exists ys, dp'. split; [exact Hrun | ]. split; [exact Hpops | ].
    split; [exact Hfifo | ]. split; [exact Hempty | ].
    split; [ | exact Hpolls].
    apply Hsorted. intros p q Hget.
    destruct p as [|[|[|p]]]; vm_compute in Hget;
      try discriminate; injection Hget as <-; repeat constructor.
Defined.

(** The two ports polled twice: port 2 first, then port 1, and a third
    poll finds nothing. *)
Example polls_two_ports :
  (polls 3 0 engine_two_ports).1
  = Val [success_of 0 (2, [x05]%byte, 5%Z);
         success_of 0 (1, [x0a]%byte, 10%Z);
         PollFailure
           {| device := None; port := None; packet := None; time := None |}
           None [] 0].
Proof. vm_compute. reflexivity. Qed.
